(** * pyvesync: the local countdown [Timer] and the response-code check

    A shallow embedding of [src/pyvesync/helpers.py]:
    - the [Timer] dataclass (lines 463-613), a small state machine whose
      methods mutate the object and read the wall clock;
    - [Helpers.nested_code_check] (lines 102-118), a recursive predicate on
      decoded JSON responses;
    - [Helpers.code_check], [Helpers.call_api] and two dict builders of the
      same file, and the outlet classes of [src/pyvesync/vesyncoutlet.py]
      that use them.

    Python integers are unbounded, so they are [Z].  Status values are
    Python strings and stay strings here.  The mutable object and the wall
    clock are threaded through a small state-and-exception monad. *)

From Stdlib Require Import ZArith String List Bool Lia PeanoNat Floats.
Import ListNotations.

Open Scope Z_scope.
Open Scope string_scope.

(** ** The Timer object *)

Module TimerModel.

(** The instance fields of the dataclass.  [remaining] is an [InitVar]: it
    is an argument of the constructor only and is not stored. *)
Record Timer : Type := mkTimer {
  timer_duration : Z;
  action : string;
  id : Z;
  _status : string;
  _remain : Z;
  update_time : option Z
}.

Definition with_status (s : string) (t : Timer) : Timer :=
  mkTimer (timer_duration t) (action t) (id t) s (_remain t) (update_time t).

Definition with_remain (r : Z) (t : Timer) : Timer :=
  mkTimer (timer_duration t) (action t) (id t) (_status t) r (update_time t).

Definition with_update_time (u : option Z) (t : Timer) : Timer :=
  mkTimer (timer_duration t) (action t) (id t) (_status t) (_remain t) u.

(** [Timer(...)]: the generated [__init__] followed by [__post_init__].
    Every field after [action] has a default; an argument that is not
    passed is [None] here.  The default of [update_time] is the expression
    [int(time.time())] of the class body: Python evaluates it once, when
    the class statement runs, and [class_time] is the value it had then. *)
Definition Timer_init (class_time : Z)
    (timer_duration : Z) (action : string) (id : option Z)
    (remaining : option Z) (_status : option string) (_remain : option Z)
    (update_time : option (option Z)) : Timer :=
  let self :=
    mkTimer timer_duration action
      (match id with Some i => i | None => 1 end)
      (match _status with Some s => s | None => "active" end)
      (match _remain with Some r => r | None => 0 end)
      (match update_time with Some u => u | None => Some class_time end) in
  match remaining with
  | Some r => with_remain r self
  | None => with_remain timer_duration self
  end.

(** [Timer(timer_duration, action)], every other argument left out. *)
Definition fresh (class_time : Z) (duration : Z) (act : string) : Timer :=
  Timer_init class_time duration act None None None None None.

(** *** State, clock and exceptions

    A world is the object together with the number of clock readings taken
    so far; the [k]-th call of [int(time.time())] returns [clock k]. *)
Record World : Type := mkWorld {
  obj : Timer;
  ticks : nat
}.

Inductive exn : Type := ValueError.

Inductive result (A : Type) : Type :=
| Val (a : A)
| Raise (e : exn).
Arguments Val {A} a.
Arguments Raise {A} e.

Definition M (A : Type) : Type := World -> result A * World.

Definition ret {A} (a : A) : M A := fun w => (Val a, w).

Definition bind {A B} (m : M A) (f : A -> M B) : M B :=
  fun w =>
    match m w with
    | (Val a, w') => f a w'
    | (Raise e, w') => (Raise e, w')
    end.

Definition raise {A} (e : exn) : M A := fun w => (Raise e, w).

Declare Scope timer_scope.
Delimit Scope timer_scope with timer.
Notation "x <- m ;; k" := (bind m (fun x => k))
  (at level 61, m at next level, right associativity) : timer_scope.
Notation "m ;; k" := (bind m (fun _ => k))
  (at level 61, right associativity) : timer_scope.
Open Scope timer_scope.

(** Attribute reads and writes on [self]. *)
Definition rd {A} (f : Timer -> A) : M A := fun w => (Val (f (obj w)), w).

Definition wr (f : Timer -> Timer) : M unit :=
  fun w => (Val tt, mkWorld (f (obj w)) (ticks w)).

(** Python's [status in ['active', 'paused', 'done']]. *)
Definition valid_status (s : string) : bool :=
  (s =? "active") || (s =? "paused") || (s =? "done").

(** The values the operations return. *)
Inductive value : Type :=
| VNone
| VStr (s : string)
| VInt (z : Z)
| VBool (b : bool).

(** The public operations of the class, with their arguments. *)
Inductive Op : Type :=
| GetStatus
| SetStatus (s : string)
| GetRemaining
| SetRemaining (n : Z)
| IsRunning
| IsPaused
| IsDone
| End
| Start
| Update (time_remaining : option Z) (status : option string)
| Pause.

Section Methods.

Variable clock : nat -> Z.

(** [int(time.time())] *)
Definition time_time : M Z :=
  fun w => (Val (clock (ticks w)), mkWorld (obj w) (S (ticks w))).

(** [Timer.end] *)
Definition end_ : M unit :=
  wr (with_status "done") ;;
  wr (with_remain 0) ;;
  wr (with_update_time None).

(** [Timer._seconds_since_check]: the clock is read only when
    [update_time] is set. *)
Definition _seconds_since_check : M Z :=
  u <- rd update_time ;;
  match u with
  | None => ret 0
  | Some u => now <- time_time ;; ret (now - u)
  end.

(** [Timer._internal_update].  The two uses of [_seconds_since_check] and
    the final [int(time.time())] are three separate readings of the
    clock; [or] and [and] evaluate their right operand only when needed. *)
Definition _internal_update : M unit :=
  s <- rd _status ;;
  if s =? "paused" then wr (with_update_time None)
  else
    (s <- rd _status ;;
     c <- (if s =? "done" then ret true
           else
             e <- _seconds_since_check ;;
             r <- rd _remain ;;
             if (e >? r)%Z then (s <- rd _status ;; ret (s =? "active"))
             else ret false) ;;
     if (c : bool) then
       wr (with_status "done") ;;
       wr (with_update_time None) ;;
       wr (with_remain 0)
     else ret tt) ;;
    s <- rd _status ;;
    if s =? "active" then
      r <- rd _remain ;;
      e <- _seconds_since_check ;;
      wr (with_remain (r - e)) ;;
      now <- time_time ;;
      wr (with_update_time (Some now))
    else ret tt.

(** The [status] property: a plain read of [_status]. *)
Definition status : M string := rd _status.

(** The setter of [status]. *)
Definition status_set (status_arg : string) : M unit :=
  if negb (valid_status status_arg) then raise ValueError
  else
    _internal_update ;;
    s <- rd _status ;;
    if (status_arg =? "done") || (s =? "done") then end_
    else
      (cur <- status ;;
       if (cur =? "paused") && (status_arg =? "active") then
         now <- time_time ;; wr (with_update_time (Some now))
       else ret tt) ;;
      (cur <- status ;;
       if (cur =? "active") && (status_arg =? "paused") then
         wr (with_update_time None)
       else ret tt) ;;
      wr (with_status status_arg).

(** The [time_remaining] property. *)
Definition time_remaining : M Z :=
  _internal_update ;;
  rd _remain.

(** The setter of [time_remaining]. *)
Definition time_remaining_set (remaining : Z) : M unit :=
  if (remaining <=? 0)%Z then end_
  else
    _internal_update ;;
    s <- rd _status ;;
    if s =? "done" then wr (with_remain 0)
    else wr (with_remain remaining).

(** The [running] property: [and] reads [status] only when the remaining
    time is positive. *)
Definition running : M bool :=
  r <- time_remaining ;;
  if (r >? 0)%Z then (s <- status ;; ret (s =? "active"))
  else ret false.

(** The [paused] property. *)
Definition paused : M bool :=
  s <- status ;; ret (s =? "paused").

(** The [done] property. *)
Definition done : M bool :=
  r <- time_remaining ;;
  if (r <=? 0)%Z then ret true
  else (s <- rd _status ;; ret (s =? "done")).

(** [Timer.start] *)
Definition start : M unit :=
  s <- rd _status ;;
  if negb (s =? "paused") then ret tt
  else
    now <- time_time ;;
    wr (with_update_time (Some now)) ;;
    status_set "active".

(** [Timer.update] *)
Definition update (time_remaining_arg : option Z)
    (status_arg : option string) : M unit :=
  match time_remaining_arg with
  | Some r => time_remaining_set r
  | None => ret tt
  end ;;
  match status_arg with
  | Some s => status_set s
  | None => ret tt
  end.

(** [Timer.pause] *)
Definition pause : M unit :=
  _internal_update ;;
  s <- status ;;
  if s =? "done" then ret tt
  else
    status_set "paused" ;;
    wr (with_update_time None).

(** One call of a public operation. *)
Definition exec (op : Op) : M value :=
  match op with
  | GetStatus => s <- status ;; ret (VStr s)
  | SetStatus s => status_set s ;; ret VNone
  | GetRemaining => r <- time_remaining ;; ret (VInt r)
  | SetRemaining n => time_remaining_set n ;; ret VNone
  | IsRunning => b <- running ;; ret (VBool b)
  | IsPaused => b <- paused ;; ret (VBool b)
  | IsDone => b <- done ;; ret (VBool b)
  | End => end_ ;; ret VNone
  | Start => start ;; ret VNone
  | Update r s => update r s ;; ret VNone
  | Pause => pause ;; ret VNone
  end.

End Methods.

(** *** Runs and the properties the data model asks for *)

(** The world an operation leaves behind, and the number of clock readings
    it took. *)
Definition after {A} (m : M A) (w : World) : World := snd (m w).

Definition readings {A} (m : M A) (w : World) : nat :=
  (ticks (after m w) - ticks w)%nat.

(** A clock that shows the same second at every reading. *)
Definition steady (clock : nat -> Z) : Prop := forall k, clock k = clock 0%nat.

(** One operation on a bare object, with the clock readings it will see,
    and a sequence of such calls. *)
Definition step (clock : nat -> Z) (op : Op) (t : Timer) : Timer :=
  obj (after (exec clock op) (mkWorld t 0)).

Fixpoint steps (calls : list ((nat -> Z) * Op)) (t : Timer) : Timer :=
  match calls with
  | [] => t
  | (clock, op) :: rest => steps rest (step clock op t)
  end.

(** A computation that returns a value from every world. *)
Definition total {A} (m : M A) : Prop :=
  forall w, exists a, fst (m w) = Val a.

(** [same_run clock clock' m m']: from every world, [m] (run under
    [clock]) never turns the count of readings back, and [m'] (run under
    [clock']) does the same as [m] whenever the two clocks agree on the
    readings [m] takes. *)
Definition same_run (clock clock' : nat -> Z) {A} (m m' : M A) : Prop :=
  forall w,
    (ticks w <= ticks (after m w))%nat /\
    ((forall j, (ticks w <= j < ticks (after m w))%nat -> clock' j = clock j) ->
     m' w = m w).

(** A computation that takes at most [k] clock readings. *)
Definition reads_le (k : nat) {A} (m : M A) : Prop :=
  forall w, (ticks (after m w) <= ticks w + k)%nat.


(** The invariants of the data model, as the specification lists them. *)
Definition done_is_cleared (t : Timer) : Prop :=
  _status t = "done" -> _remain t = 0 /\ update_time t = None.

Definition paused_has_no_update_time (t : Timer) : Prop :=
  _status t = "paused" -> update_time t = None.

Definition remaining_in_range (t : Timer) : Prop :=
  0 <= _remain t <= timer_duration t.

Definition data_model_invariant (t : Timer) : Prop :=
  done_is_cleared t /\ paused_has_no_update_time t /\ remaining_in_range t.

(** What every reachable state satisfies: a recognised status and the two
    status invariants. *)
Definition state_invariant (t : Timer) : Prop :=
  valid_status (_status t) = true /\
  done_is_cleared t /\ paused_has_no_update_time t.


(** What [_internal_update] computes, reading by reading: [clock n] is the
    sample of the elapsed-time test, [clock (n+1)] the sample of the
    decrement and [clock (n+2)] the sample stored in [update_time]. *)
Definition reconcile (clock : nat -> Z) (w : World) : World :=
  let t := obj w in
  let n := ticks w in
  if _status t =? "paused" then mkWorld (with_update_time None t) n
  else if _status t =? "done" then
    mkWorld (with_remain 0 (with_update_time None (with_status "done" t))) n
  else if _status t =? "active" then
    match update_time t with
    | None =>
        if (0 >? _remain t)%Z then
          mkWorld (with_remain 0 (with_update_time None (with_status "done" t))) n
        else
          mkWorld (with_update_time (Some (clock n))
                     (with_remain (_remain t - 0) t)) (S n)
    | Some u =>
        if (clock n - u >? _remain t)%Z then
          mkWorld (with_remain 0 (with_update_time None (with_status "done" t)))
                  (S n)
        else
          mkWorld (with_update_time (Some (clock (S (S n))))
                     (with_remain (_remain t - (clock (S n) - u)) t))
                  (S (S (S n)))
    end
  else
    (* an unrecognised status: the elapsed-time test still reads the clock *)
    match update_time t with
    | None => w
    | Some _ => mkWorld t (S n)
    end.

End TimerModel.

(** ** The response-code check *)

Module Helpers.

(** A decoded JSON document, as [json.loads] builds it.  A [dict] is the
    list of its items in iteration order. *)
#[warnings="-register-all"]
Inductive json : Type :=
| JNone
| JBool (b : bool)
| JInt (z : Z)
| JFloat (f : float)
| JStr (s : string)
| JList (l : list json)
| JDict (items : list (string * json)).

(** Induction over documents that reaches the values of a dict and the
    elements of a list. *)
Section JsonInduction.

Variable P : json -> Prop.
Hypothesis HNone : P JNone.
Hypothesis HBool : forall b, P (JBool b).
Hypothesis HInt : forall z, P (JInt z).
Hypothesis HFloat : forall f, P (JFloat f).
Hypothesis HStr : forall s, P (JStr s).
Hypothesis HList : forall l, Forall P l -> P (JList l).
Hypothesis HDict : forall items, Forall (fun kv => P (snd kv)) items -> P (JDict items).

Fixpoint json_nested_ind (v : json) : P v :=
  match v with
  | JNone => HNone
  | JBool b => HBool b
  | JInt z => HInt z
  | JFloat f => HFloat f
  | JStr s => HStr s
  | JList l =>
      HList l
        ((fix all (l : list json) : Forall P l :=
            match l with
            | [] => Forall_nil _
            | x :: r => Forall_cons _ (json_nested_ind x) (all r)
            end) l)
  | JDict items =>
      HDict items
        ((fix all (l : list (string * json)) : Forall (fun kv => P (snd kv)) l :=
            match l with
            | [] => Forall_nil _
            | kv :: r => Forall_cons _ (json_nested_ind (snd kv)) (all r)
            end) items)
  end.

End JsonInduction.

(** Python's [value != 0]: [False] and [0.0] are equal to [0]; [None],
    strings, lists and dicts are not. *)
Definition ne_zero (value : json) : bool :=
  match value with
  | JNone => true
  | JBool b => b
  | JInt z => negb (z =? 0)%Z
  | JFloat f => negb (PrimFloat.eqb f PrimFloat.zero)
  | JStr _ => true
  | JList _ => true
  | JDict _ => true
  end.

(** [isinstance(value, dict)] *)
Definition is_dict (value : json) : bool :=
  match value with
  | JDict _ => true
  | _ => false
  end.

(** [Helpers.nested_code_check]: the loop over [response.items()] returns
    [False] at the first offending item. *)
Fixpoint nested_code_check (response : json) : bool :=
  match response with
  | JDict items =>
      (fix loop (l : list (string * json)) : bool :=
         match l with
         | [] => true
         | (key, value) :: rest =>
             if ((key =? "code") && ne_zero value)
                || (is_dict value && negb (nested_code_check value))
             then false
             else loop rest
         end) items
  | _ => true
  end.

(** The loop of [nested_code_check], by itself. *)
Definition check_items (items : list (string * json)) : bool :=
  forallb
    (fun kv =>
       negb (((fst kv =? "code") && ne_zero (snd kv))
             || (is_dict (snd kv) && negb (nested_code_check (snd kv)))))
    items.

(** [child v c]: [c] is a value of the dict [v] or an element of the list
    [v]. *)
Inductive child : json -> json -> Prop :=
| child_dict (items : list (string * json)) (k : string) (c : json) :
    In (k, c) items -> child (JDict items) c
| child_list (l : list json) (c : json) :
    In c l -> child (JList l) c.

(** [inside v d]: [d] is [v] or is reachable from [v] through dict values
    and list elements. *)
Inductive inside : json -> json -> Prop :=
| inside_here (v : json) : inside v v
| inside_child (v c d : json) : child v c -> inside c d -> inside v d.

(** [dict_inside v d]: [d] is [v] or is reachable from [v] through dict
    values only. *)
Inductive dict_inside : json -> json -> Prop :=
| dict_inside_here (v : json) : dict_inside v v
| dict_inside_value (items : list (string * json)) (k : string) (c d : json) :
    In (k, c) items -> dict_inside c d -> dict_inside (JDict items) d.

(** Every [code] field of every mapping selected by [reach] is zero. *)
Definition codes_zero (reach : json -> json -> Prop) (v : json) : Prop :=
  forall items x,
    reach v (JDict items) -> In ("code", x) items -> ne_zero x = false.

End Helpers.

(** ** Responses of the API *)

Module Responses.
Import Helpers.

(** The exceptions the modelled code can raise. *)
Inductive pyexn : Type :=
| VeSyncRateLimitError
| AttributeError
| KeyError
| TypeError
| IndexError.

Inductive pyresult (A : Type) : Type :=
| Ok (a : A)
| Err (e : pyexn).
Arguments Ok {A} a.
Arguments Err {A} e.

(** The value stored under [key] in a dict, if the key is present. *)
Fixpoint dict_lookup (key : string) (items : list (string * json))
  : option json :=
  match items with
  | [] => None
  | (k, v) :: rest => if k =? key then Some v else dict_lookup key rest
  end.

(** [d.get(key, default)] on a dict. *)
Definition dict_get (key : string) (default : json)
    (items : list (string * json)) : json :=
  match dict_lookup key items with
  | Some v => v
  | None => default
  end.

(** [d[key] = v] on a dict: an existing key keeps its place. *)
Fixpoint dict_set (key : string) (v : json) (items : list (string * json))
  : list (string * json) :=
  match items with
  | [] => [(key, v)]
  | (k, x) :: rest =>
      if k =? key then (k, v) :: rest else (k, x) :: dict_set key v rest
  end.

(** [value.get(key, default)] on any value: only a dict has [get]. *)
Definition method_get (key : string) (default : json) (value : json)
  : pyresult json :=
  match value with
  | JDict items => Ok (dict_get key default items)
  | _ => Err AttributeError
  end.

(** [value[key]] with a string key: a missing key raises [KeyError];
    [None], numbers, strings and lists raise [TypeError]. *)
Definition subscript (key : string) (value : json) : pyresult json :=
  match value with
  | JDict items =>
      match dict_lookup key items with
      | Some v => Ok v
      | None => Err KeyError
      end
  | _ => Err TypeError
  end.

(** Python's [value == 0] and [value == 1]. *)
Definition eq_zero (value : json) : bool :=
  match value with
  | JBool b => negb b
  | JInt z => (z =? 0)%Z
  | JFloat f => PrimFloat.eqb f PrimFloat.zero
  | _ => false
  end.

Definition eq_one (value : json) : bool :=
  match value with
  | JBool b => b
  | JInt z => (z =? 1)%Z
  | JFloat f => PrimFloat.eqb f PrimFloat.one
  | _ => false
  end.

(** Python's truth value of a decoded document. *)
Definition truthy (value : json) : bool :=
  match value with
  | JNone => false
  | JBool b => b
  | JInt z => negb (z =? 0)%Z
  | JFloat f => negb (PrimFloat.eqb f PrimFloat.zero)
  | JStr s => negb (s =? "")
  | JList l => match l with [] => false | _ => true end
  | JDict items => match items with [] => false | _ => true end
  end.

(** [Helpers.code_check]: Python's [None] is [JNone]. *)
Definition code_check (r : json) : bool :=
  match r with
  | JNone => false
  | JDict items => eq_zero (dict_get "code" JNone items)
  | _ => false
  end.

(** [Helpers.build_details_dict], on a dict. *)
Definition build_details_dict (r : list (string * json))
  : list (string * json) :=
  [ ("active_time", dict_get "activeTime" (JInt 0) r);
    ("energy", dict_get "energy" (JInt 0) r);
    ("night_light_status", dict_get "nightLightStatus" JNone r);
    ("night_light_brightness", dict_get "nightLightBrightness" JNone r);
    ("night_light_automode", dict_get "nightLightAutomode" JNone r);
    ("power", dict_get "power" (JInt 0) r);
    ("voltage", dict_get "voltage" (JInt 0) r) ].

(** [Helpers.build_energy_dict], on a dict. *)
Definition build_energy_dict (r : list (string * json))
  : list (string * json) :=
  [ ("energy_consumption_of_today",
       dict_get "energyConsumptionOfToday" (JInt 0) r);
    ("cost_per_kwh", dict_get "costPerKWH" (JInt 0) r);
    ("max_energy", dict_get "maxEnergy" (JInt 0) r);
    ("total_energy", dict_get "totalEnergy" (JInt 0) r);
    ("currency", dict_get "currency" (JInt 0) r);
    ("data", dict_get "data" (JInt 0) r) ].

(** What the HTTP request of [Helpers.call_api] came to: the [requests]
    call raised, or it returned a response with a status code and a text;
    [body] is the decoded text when [LibraryLogger.is_json] accepts it. *)
Inductive http_outcome : Type :=
| HttpRaised
| HttpResponse (status_code : Z) (text : string) (body : option json).

Section CallApi.

(** [code in ERR_RATE_LIMITS]: the constant is not part of the sources; the
    test is a parameter and may itself raise (an unhashable code looked up
    in a set). *)
Variable in_rate_limits : json -> pyresult bool.

(** [Helpers.call_api], from the outcome of its HTTP request on.  The
    [get] on the decoded body is outside the [try] block, so its
    [AttributeError] (a body that is not an object) is not caught. *)
Definition call_api (http : http_outcome) : pyresult json :=
  match http with
  | HttpRaised => Ok JNone
  | HttpResponse status_code text body =>
      if (status_code =? 200)%Z then
        match body with
        | Some response =>
            match method_get "code" JNone response with
            | Err e => Err e
            | Ok code =>
                match in_rate_limits code with
                | Err e => Err e
                | Ok true => Err VeSyncRateLimitError
                | Ok false => Ok response
                end
            end
        | None => Ok (JStr text)
        end
      else Ok JNone
  end.

End CallApi.

End Responses.

(** ** The outlets *)

Module Outlets.
Import Helpers.
Import Responses.

(** The attributes of an outlet the modelled methods read or write.
    [cid], [device_status], [connection_status], [details], [config] and
    [sub_device_no] are set up by [VeSyncBaseDevice], which is not part of
    the sources; [energy_history] is what its [supports('energyHistory')]
    answers. *)
Record Outlet : Type := mkOutlet {
  cid : string;
  device_status : json;
  connection_status : json;
  details : list (string * json);
  energy : list (string * json);
  config : list (string * json);
  update_energy_ts : option float;
  _energy_update_interval : float;
  sub_device_no : Z;
  energy_history : bool
}.

Definition with_device_status (v : json) (o : Outlet) : Outlet :=
  mkOutlet (cid o) v (connection_status o) (details o) (energy o) (config o)
    (update_energy_ts o) (_energy_update_interval o) (sub_device_no o)
    (energy_history o).

Definition with_connection_status (v : json) (o : Outlet) : Outlet :=
  mkOutlet (cid o) (device_status o) v (details o) (energy o) (config o)
    (update_energy_ts o) (_energy_update_interval o) (sub_device_no o)
    (energy_history o).

Definition with_details (v : list (string * json)) (o : Outlet) : Outlet :=
  mkOutlet (cid o) (device_status o) (connection_status o) v (energy o)
    (config o) (update_energy_ts o) (_energy_update_interval o)
    (sub_device_no o) (energy_history o).

Definition with_energy (v : list (string * json)) (o : Outlet) : Outlet :=
  mkOutlet (cid o) (device_status o) (connection_status o) (details o) v
    (config o) (update_energy_ts o) (_energy_update_interval o)
    (sub_device_no o) (energy_history o).

Definition with_update_energy_ts (v : option float) (o : Outlet) : Outlet :=
  mkOutlet (cid o) (device_status o) (connection_status o) (details o)
    (energy o) (config o) v (_energy_update_interval o) (sub_device_no o)
    (energy_history o).

(** The outlet, the paths requested from the API so far (oldest first) and
    the number of readings of [time.time()] taken so far. *)
Record Env : Type := mkEnv {
  dev : Outlet;
  requested : list string;
  clock_reads : nat
}.

Definition OM (A : Type) : Type := Env -> pyresult A * Env.

Definition oret {A} (a : A) : OM A := fun e => (Ok a, e).

Definition obind {A B} (m : OM A) (f : A -> OM B) : OM B :=
  fun e =>
    match m e with
    | (Ok a, e') => f a e'
    | (Err x, e') => (Err x, e')
    end.

(** A pure computation that may raise. *)
Definition lift {A} (r : pyresult A) : OM A := fun e => (r, e).

Declare Scope outlet_scope.
Delimit Scope outlet_scope with outlet.
Notation "x <~ m ;; k" := (obind m (fun x => k))
  (at level 61, m at next level, right associativity) : outlet_scope.
Notation "m ;;; k" := (obind m (fun _ => k))
  (at level 61, right associativity) : outlet_scope.
Open Scope outlet_scope.

Definition attr {A} (f : Outlet -> A) : OM A := fun e => (Ok (f (dev e)), e).

Definition assign (f : Outlet -> Outlet) : OM unit :=
  fun e => (Ok tt, mkEnv (f (dev e)) (requested e) (clock_reads e)).

(** [self.energy[period] = v] *)
Definition assign_energy (period : string) (v : json) : OM unit :=
  assign (fun o => with_energy (dict_set period v (energy o)) o).

(** [self.details[key] = v] *)
Definition assign_detail (key : string) (v : json) : OM unit :=
  assign (fun o => with_details (dict_set key v (details o)) o).

(** A Python [str] is held as its UTF-8 encoding.  A byte of the form
    [10xxxxxx] continues the character begun before it. *)
Definition is_continuation (c : Ascii.ascii) : bool :=
  match c with
  | Ascii.Ascii _ _ _ _ _ _ b6 b7 => b7 && negb b6
  end.

(** The characters of a string, each with its continuation bytes. *)
Fixpoint characters (s : string) : list string :=
  match s with
  | EmptyString => []
  | String c rest =>
      match rest with
      | EmptyString => [String c EmptyString]
      | String d _ =>
          if is_continuation d then
            match characters rest with
            | g :: gs => String c g :: gs
            | [] => [String c EmptyString]
            end
          else String c EmptyString :: characters rest
      end
  end.

(** [len(value)]: a string counts its characters. *)
Definition py_len (value : json) : pyresult Z :=
  match value with
  | JStr s => Ok (Z.of_nat (List.length (characters s)))
  | JList l => Ok (Z.of_nat (List.length l))
  | JDict items => Ok (Z.of_nat (List.length items))
  | _ => Err TypeError
  end.

(** [value[i]] with an integer index: negative indices count from the end
    of a list or string; a string yields the character at that place; a
    dict decoded from JSON has no integer key. *)
Definition py_index (value : json) (i : Z) : pyresult json :=
  match value with
  | JList l =>
      let n := Z.of_nat (List.length l) in
      let j := if (i <? 0)%Z then (i + n)%Z else i in
      if ((0 <=? j) && (j <? n))%Z then
        match nth_error l (Z.to_nat j) with
        | Some x => Ok x
        | None => Err IndexError
        end
      else Err IndexError
  | JStr s =>
      let n := Z.of_nat (List.length (characters s)) in
      let j := if (i <? 0)%Z then (i + n)%Z else i in
      if ((0 <=? j) && (j <? n))%Z then
        match nth_error (characters s) (Z.to_nat j) with
        | Some c => Ok (JStr c)
        | None => Err IndexError
        end
      else Err IndexError
  | JDict _ => Err KeyError
  | _ => Err TypeError
  end.

(** The outlets that talk to the API through a class-specific
    [call_api]. *)
Inductive family : Type :=
| Outlet10A
| Outlet15A
| OutdoorPlug.

Definition prefix (fam : family) : string :=
  match fam with
  | Outlet10A => "/10a/v1/device/"
  | Outlet15A => "/15a/v1/device/"
  | OutdoorPlug => "/outdoorsocket15a/v1/device/"
  end.

Section Methods.

(** The constants of [const.py], which is not part of the sources. *)
Variables ENERGY_WEEK ENERGY_MONTH ENERGY_YEAR : string.
Variables STATUS_ON STATUS_OFF : json.
Variable in_rate_limits : json -> pyresult bool.
(** [err_code not in ERR_REQ_TIMEOUTS]: it only decides whether a line is
    logged, but may raise. *)
Variable not_in_req_timeouts : json -> pyresult bool.

(** The outcome of the [k]-th HTTP request, and the [k]-th reading of
    [time.time()]. *)
Variable server : nat -> string -> http_outcome.
Variable clock : nat -> float.

(** [time.time()] *)
Definition time_time : OM float :=
  fun e => (Ok (clock (clock_reads e)),
            mkEnv (dev e) (requested e) (S (clock_reads e))).

(** [Helpers.call_api] on [path]: the request is logged, then answered. *)
Definition api_request (path : string) : OM json :=
  fun e =>
    (call_api in_rate_limits (server (List.length (requested e)) path),
     mkEnv (dev e) (requested e ++ [path]) (clock_reads e)).

(** *** VeSyncOutlet *)

(** [VeSyncOutlet.update_time_check] *)
Definition update_time_check : OM bool :=
  ts <~ attr update_energy_ts ;;
  match ts with
  | None => oret true
  | Some t =>
      now <~ time_time ;;
      interval <~ attr _energy_update_interval ;;
      oret (PrimFloat.ltb interval (PrimFloat.sub now t))
  end.

Section Energy.

(** The [get_energy] of the subclass. *)
Variable get_energy : string -> OM json.

(** [get_weekly_energy], [get_monthly_energy], [get_yearly_energy] *)
Definition get_period_energy (period : string) : OM json :=
  s <~ attr energy_history ;;
  if (s : bool) then get_energy period else oret JNone.

Definition get_weekly_energy : OM json := get_period_energy ENERGY_WEEK.
Definition get_monthly_energy : OM json := get_period_energy ENERGY_MONTH.
Definition get_yearly_energy : OM json := get_period_energy ENERGY_YEAR.

(** [VeSyncOutlet.update_energy]; [bypass] is its argument
    [bypass_check]. *)
Definition update_energy (bypass : bool) : OM unit :=
  go <~ (if bypass then oret true else update_time_check) ;;
  if (go : bool) then
    now <~ time_time ;;
    assign (with_update_energy_ts (Some now)) ;;;
    weekly <~ get_weekly_energy ;;
    match weekly with
    | JNone =>
        assign_energy ENERGY_MONTH (JDict []) ;;;
        assign_energy ENERGY_YEAR (JDict [])
    | _ =>
        get_monthly_energy ;;;
        get_yearly_energy ;;;
        oret tt
    end ;;;
    if negb bypass then
      now <~ time_time ;;
      assign (with_update_energy_ts (Some now))
    else oret tt
  else oret tt.

End Energy.

(** [active_time] *)
Definition active_time : OM json :=
  d <~ attr details ;; oret (dict_get "active_time" (JInt 0) d).

(** [weekly_energy_total], [monthly_energy_total], [yearly_energy_total] *)
Definition period_energy_total (period : string) : OM json :=
  en <~ attr energy ;;
  lift (method_get "total_energy" (JInt 0) (dict_get period (JDict []) en)).

Definition weekly_energy_total : OM json := period_energy_total ENERGY_WEEK.
Definition monthly_energy_total : OM json := period_energy_total ENERGY_MONTH.
Definition yearly_energy_total : OM json := period_energy_total ENERGY_YEAR.

(** *** VeSyncOutlet7A *)

(** [VeSyncOutlet7A.turn] *)
Definition turn_7A (status : string) : OM bool :=
  c <~ attr cid ;;
  r <~ api_request ("/v1/wifi-switch-1.3/" ++ c ++ "/status/" ++ status) ;;
  match r with
  | JNone => oret false
  | _ => assign (with_device_status (JStr status)) ;;; oret true
  end.

(** *** VeSyncOutlet10A, VeSyncOutlet15A, VeSyncOutdoorPlug *)

(** A builder of [Helpers] applied to a response: [r.get] needs a dict. *)
Definition build (f : list (string * json) -> list (string * json))
    (r : json) : pyresult json :=
  match r with
  | JDict items => Ok (JDict (f items))
  | _ => Err AttributeError
  end.

(** [turn] *)
Definition turn (fam : family) (status : json) : OM bool :=
  r <~ api_request (prefix fam ++ "devicestatus") ;;
  if code_check r then assign (with_device_status status) ;;; oret true
  else oret false.

(** [get_energy] *)
Definition get_energy (fam : family) (period : string) : OM json :=
  r <~ api_request (prefix fam ++ "energy" ++ period) ;;
  (if code_check r then
     d <~ lift (build build_energy_dict r) ;;
     assign_energy period d
   else assign_energy period JNone) ;;;
  en <~ attr energy ;;
  lift (subscript period (JDict en)).

(** [VeSyncOutdoorPlug.get_details] *)
Definition get_details_outdoor : OM unit :=
  r <~ api_request (prefix OutdoorPlug ++ "devicedetail") ;;
  if code_check r then
    d <~ lift (build build_details_dict r) ;;
    match d with
    | JDict items => assign (with_details items)
    | _ => oret tt
    end ;;;
    c <~ lift (method_get "connectionStatus" JNone r) ;;
    assign (with_connection_status c) ;;;
    dev_no <~ attr sub_device_no ;;
    sub_device_list <~ lift (method_get "subDevices" JNone r) ;;
    if truthy sub_device_list then
      n <~ lift (py_len sub_device_list) ;;
      if (dev_no <=? n)%Z then
        x <~ lift (py_index sub_device_list (dev_no + -1)) ;;
        st <~ lift (method_get "subDeviceStatus" JNone x) ;;
        assign (with_device_status st)
      else oret tt
    else oret tt
  else oret tt.

(** *** VeSyncOutletV2 and its subclasses

    [manager.post_device_managed_v2] is not part of the sources; its return
    value is the argument [response]. *)

(** [VeSyncOutletV2.get_response], for a body with [payload.method] (every
    caller builds one): the pair of the result and the error. *)
Definition get_response (response : json)
  : OM (json * option (json * json)) :=
  if code_check response then
    code <~ lift (subscript "result" response) ;;
    c <~ lift (subscript "code" code) ;;
    if eq_zero c then oret (code, None)
    else
      c' <~ lift (subscript "code" code) ;;
      oret (JNone, Some (c', JStr "wrong argument"))
  else if truthy response then
    err_code <~ lift (subscript "code" response) ;;
    err_msg <~ lift (subscript "msg" response) ;;
    lift (not_in_req_timeouts err_code) ;;;
    oret (JNone, Some (err_code, err_msg))
  else
    assign (with_connection_status (JStr "offline")) ;;;
    oret (JNone, Some (JInt (-1), JStr "offline")).

(** [VeSyncOutletBSDGO1.turn] and [VeSyncOutletWYSMTOD16A.turn] *)
Definition turn_v2 (response : json) (status : json) : OM bool :=
  res <~ get_response response ;;
  match snd res with
  | None => assign (with_device_status status) ;;; oret true
  | Some _ => oret false
  end.

(** [VeSyncOutletBSDGO1.get_details] *)
Definition get_details_BSDGO1 (response : json) : OM unit :=
  res <~ get_response response ;;
  match fst res with
  | JNone => oret tt
  | code =>
      sw <~ lift (method_get "powerSwitch_1" JNone code) ;;
      if eq_one sw then assign (with_device_status STATUS_ON)
      else assign (with_device_status STATUS_OFF)
  end.

(** [VeSyncOutletWYSMTOD16A.get_properties] *)
Definition get_properties (response : json) : OM json :=
  res <~ get_response response ;;
  match snd res with
  | None => lift (subscript "result" (fst res))
  | Some _ => oret JNone
  end.

(** [VeSyncOutletWYSMTOD16A.get_details] *)
Definition get_details_WYSMTOD16A (response : json) : OM unit :=
  properties <~ get_properties response ;;
  if truthy properties then
    sw <~ lift (method_get "powerSwitch_1" (JBool false) properties) ;;
    (if truthy sw then assign (with_device_status STATUS_ON)
     else assign (with_device_status STATUS_OFF)) ;;;
    v <~ lift (method_get "realTimeVoltage" (JInt 0) properties) ;;
    assign_detail "voltage" v ;;;
    c <~ lift (method_get "realTimeCurrent" (JInt 0) properties) ;;
    assign_detail "current" c ;;;
    pw <~ lift (method_get "realTimePower" (JInt 0) properties) ;;
    assign_detail "power" pw ;;;
    en <~ lift (method_get "electricalEnergy" (JInt 0) properties) ;;
    assign_detail "energy" en ;;;
    assign (with_connection_status (JStr "online"))
  else assign (with_connection_status (JStr "offline")).

End Methods.

(** The environment a computation leaves behind. *)
Definition left_by {A} (m : OM A) (e : Env) : Env := snd (m e).

End Outlets.

(** * Properties *)

(** ** The response-code check *)

Module HelpersFacts.
Import Helpers.

Lemma nested_code_check_dict items :
  nested_code_check (JDict items) = check_items items.
Proof.
  unfold check_items. cbn [nested_code_check].
  induction items as [|[k v] rest IH]; cbn [forallb fst snd]; [reflexivity|].
  destruct ((k =? "code") && ne_zero v || is_dict v && negb (nested_code_check v));
    cbn [negb andb]; [reflexivity | exact IH].
Qed.

(** What one passing item says about its key and value. *)
Lemma check_items_In items k v :
  check_items items = true -> In (k, v) items ->
  ((k =? "code") && ne_zero v = false) /\
  (is_dict v = true -> nested_code_check v = true).
Proof.
  unfold check_items. rewrite forallb_forall. intros H Hin.
  specialize (H (k, v) Hin). cbn [fst snd] in H.
  apply negb_true_iff, orb_false_iff in H. destruct H as [H1 H2].
  split; [exact H1|]. intros Hd. rewrite Hd in H2. cbn in H2.
  now apply negb_false_iff in H2.
Qed.

Lemma dict_inside_is_dict v items :
  dict_inside v (JDict items) -> is_dict v = true.
Proof. inversion 1; reflexivity. Qed.

Lemma check_sound v :
  nested_code_check v = true -> codes_zero dict_inside v.
Proof.
  induction v as [| | | | | |items IH] using json_nested_ind;
    intros Hc its x Hin Hx;
    try (apply dict_inside_is_dict in Hin; discriminate).
  rewrite nested_code_check_dict in Hc.
  inversion Hin as [|its' k c d Hk Hd]; subst.
  - destruct (check_items_In _ _ _ Hc Hx) as [H _].
    cbn in H. exact H.
  - rewrite Forall_forall in IH.
    destruct (check_items_In _ _ _ Hc Hk) as [_ H].
    refine (IH (k, c) Hk _ its x Hd Hx).
    apply H. eapply dict_inside_is_dict; eassumption.
Qed.

Lemma check_complete v :
  codes_zero dict_inside v -> nested_code_check v = true.
Proof.
  induction v as [| | | | | |items IH] using json_nested_ind;
    intros Hz; try reflexivity.
  rewrite nested_code_check_dict. unfold check_items.
  rewrite forallb_forall. intros [k c] Hk. cbn [fst snd].
  apply negb_true_iff, orb_false_iff. split.
  - destruct (String.eqb_spec k "code") as [->|]; [|reflexivity].
    cbn. apply (Hz items c); [constructor | exact Hk].
  - destruct (is_dict c) eqn:Hd; [|reflexivity]. cbn.
    apply negb_false_iff.
    rewrite Forall_forall in IH. apply (IH (k, c) Hk).
    intros its x Hin Hx. apply (Hz its x); [|exact Hx].
    econstructor; eassumption.
Qed.

(** C9, as stated, fails: the check does not look into lists.  The response
    [{'result': [{'code': 1}]}] passes although a mapping inside it has a
    non-zero [code]. *)
Lemma list_hides_code :
  let inner := JDict [("code", JInt 1)] in
  let response := JDict [("result", JList [inner])] in
  nested_code_check response = true /\
  inside response inner /\
  In ("code", JInt 1) [("code", JInt 1)] /\
  ne_zero (JInt 1) = true /\
  ~ codes_zero inside response.
Proof.
  cbv zeta.
  assert (Hin : inside (JDict [("result", JList [JDict [("code", JInt 1)]])])
                       (JDict [("code", JInt 1)])).
  { eapply inside_child; [apply child_dict with (k := "result"); left; reflexivity|].
    eapply inside_child; [apply child_list; left; reflexivity|].
    apply inside_here. }
  repeat split; try reflexivity; try exact Hin.
  - left; reflexivity.
  - intros H. specialize (H _ (JInt 1) Hin (or_introl eq_refl)). discriminate.
Qed.

(** C9 (amended): [nested_code_check] returns true exactly when every [code]
    field of the response and of every mapping reached from it through dict
    values only (not through lists) is equal to zero. *)
Theorem nested_code_check_iff (response : json) :
  nested_code_check response = true <-> codes_zero dict_inside response.
Proof. split; [apply check_sound | apply check_complete]. Qed.

End HelpersFacts.

(** ** The Timer *)

Module TimerFacts.
Import TimerModel.

Ltac unfold_monad :=
  unfold bind, ret, raise, rd, wr, time_time in *.

Ltac unfold_methods :=
  unfold exec, pause, update, start, done, paused, running,
    time_remaining_set, time_remaining, status_set, status,
    _internal_update, _seconds_since_check, end_ in *.

Ltac unfold_updates :=
  unfold with_status, with_remain, with_update_time in *.

Lemma valid_status_true (s : string) :
  valid_status s = true <-> s = "active" \/ s = "paused" \/ s = "done".
Proof.
  unfold valid_status.
  rewrite !orb_true_iff, !String.eqb_eq. tauto.
Qed.


(** *** A run of the timer

    A 10-second timer whose class was created at second 100: 6 seconds are
    left at second 104; paused, it still has 6 seconds at second 204;
    started again and read 6 seconds later it has 0 seconds left, [done]
    answers true, and the stored status is still 'active'. *)
Example run_pause_and_start :
  let t1 := step (fun _ => 104) GetRemaining (fresh 100 10 "poweroff") in
  let t2 := step (fun _ => 104) Pause t1 in
  let t3 := step (fun _ => 204) GetRemaining t2 in
  let t4 := step (fun _ => 204) Start t3 in
  t1 = mkTimer 10 "poweroff" 1 "active" 6 (Some 104) /\
  t2 = mkTimer 10 "poweroff" 1 "paused" 6 None /\
  t3 = t2 /\
  t4 = mkTimer 10 "poweroff" 1 "active" 6 (Some 204) /\
  exec (fun _ => 210) IsDone (mkWorld t4 0) =
    (Val (VBool true), mkWorld (mkTimer 10 "poweroff" 1 "active" 0 (Some 210)) 3).
Proof. vm_compute. repeat split. Qed.

(** *** Reconciliation, reading by reading *)

Lemma _internal_update_reconcile clock w :
  _internal_update clock w = (Val tt, reconcile clock w).
Proof.
  destruct w as [[d a i s r u] n].
  unfold reconcile, _internal_update, _seconds_since_check.
  unfold_monad; unfold_updates; cbn.
  destruct (s =? "paused") eqn:Ep; cbn; [reflexivity|].
  destruct (s =? "done") eqn:Ed; cbn.
  - apply String.eqb_eq in Ed; subst; reflexivity.
  - destruct u as [u|]; cbn.
    + destruct (clock n - u >? r)%Z; cbn;
        destruct (s =? "active") eqn:Ea; cbn; rewrite ?Ea; reflexivity.
    + destruct (0 >? r)%Z; cbn;
        destruct (s =? "active") eqn:Ea; cbn; rewrite ?Ea; reflexivity.
Qed.

Lemma time_remaining_reconcile clock w :
  time_remaining clock w =
  (Val (_remain (obj (reconcile clock w))), reconcile clock w).
Proof.
  unfold time_remaining, bind. rewrite _internal_update_reconcile. reflexivity.
Qed.





(** *** Reading the status *)

(** C1, as stated, fails: the [status] property returns the stored value
    without reconciling.  An active timer with 5 seconds left, last
    updated at second 0 and read at second 10, still answers 'active' and
    is left untouched; reconciling first would have answered 'done'. *)
Lemma status_read_is_stale :
  let t := mkTimer 5 "off" 1 "active" 5 (Some 0) in
  let w := mkWorld t 0 in
  let clock := fun _ : nat => 10 in
  clock (ticks w) - 0 > _remain t /\
  exec clock GetStatus w = (Val (VStr "active"), w) /\
  fst ((_internal_update clock ;; status) w) = Val "done".
Proof. cbv zeta. repeat split. Qed.

(** C1 (amended): reading the status returns the stored status, applies no
    reconciliation and leaves the timer and the clock untouched; the
    status of an active timer whose elapsed time strictly exceeds its
    remaining seconds reads 'done' once the remaining time has been read
    (which reconciles). *)
Theorem status_is_plain_read (clock : nat -> Z) (w : World) :
  exec clock GetStatus w = (Val (VStr (_status (obj w))), w) /\
  (forall u,
      _status (obj w) = "active" ->
      update_time (obj w) = Some u ->
      clock (ticks w) - u > _remain (obj w) ->
      fst ((time_remaining clock ;; status) w) = Val "done").
Proof.
  split; [reflexivity|].
  intros u Hs Hu Hgt. unfold bind. rewrite time_remaining_reconcile.
  destruct w as [[d a i s r x] n]; cbn in *; subst.
  unfold reconcile, status, rd; unfold_updates; cbn.
  replace (clock n - u >? r)%Z with true; [reflexivity|].
  symmetry. apply Z.gtb_lt. lia.
Qed.

(** *** Construction *)

(** With the documented default ([update_time] left [None]) a new timer
    reads its full duration, whatever the clock shows. *)
Lemma documented_default_reads_duration clock class_time duration act n :
  0 <= duration ->
  exec clock GetRemaining
    (mkWorld (Timer_init class_time duration act None None None None (Some None)) n)
  = (Val (VInt duration),
     mkWorld (mkTimer duration act 1 "active" duration (Some (clock n))) (S n)).
Proof.
  intros Hd. unfold exec, bind. rewrite time_remaining_reconcile.
  unfold reconcile, Timer_init, ret; unfold_updates; cbn.
  replace (0 >? duration)%Z with false
    by (symmetry; rewrite Z.gtb_ltb; apply Z.ltb_ge; lia).
  cbn. now rewrite Z.sub_0_r.
Qed.

(** C6 on the code: the default of [update_time] is the second at which
    the class statement ran.  With the class created at second 1000 and
    [Timer(10, 'off')] built and read at second 1100, the status reads
    'active' but the remaining time reads 0 (not 10) and the timer is
    done. *)
Lemma fresh_timer_stale_default :
  let t := fresh 1000 10 "off" in
  let clock := fun _ : nat => 1100 in
  t = mkTimer 10 "off" 1 "active" 10 (Some 1000) /\
  exec clock GetStatus (mkWorld t 0) = (Val (VStr "active"), mkWorld t 0) /\
  exec clock GetRemaining (mkWorld t 0) =
    (Val (VInt 0), mkWorld (mkTimer 10 "off" 1 "done" 0 None) 1).
Proof. cbv zeta. repeat split. Qed.

(** *** Setting the remaining time *)

(** C7: [set_remaining] with [seconds <= 0] does exactly what [end] does
    (status done, remaining 0, no [update_time]); with [seconds > 0] it
    reconciles, and then a done timer gets remaining 0 and stays done,
    while any other timer gets remaining [seconds]. *)
Theorem time_remaining_set_cases (clock : nat -> Z) (seconds : Z) (w : World) :
  (seconds <= 0 ->
     time_remaining_set clock seconds w = end_ w /\
     after (time_remaining_set clock seconds) w =
       mkWorld (mkTimer (timer_duration (obj w)) (action (obj w)) (id (obj w))
                  "done" 0 None) (ticks w)) /\
  (0 < seconds ->
     let w1 := after (_internal_update clock) w in
     (_status (obj w1) = "done" ->
        time_remaining_set clock seconds w = (Val tt, w1) /\
        _status (obj w1) = "done" /\ _remain (obj w1) = 0) /\
     (_status (obj w1) <> "done" ->
        time_remaining_set clock seconds w =
          (Val tt, mkWorld (with_remain seconds (obj w1)) (ticks w1)))).
Proof.
  unfold after, time_remaining_set. split.
  - intros H. apply Z.leb_le in H. rewrite H. split; reflexivity.
  - intros H. apply Z.leb_gt in H. rewrite H. cbv zeta.
    unfold bind. rewrite _internal_update_reconcile. cbn [fst snd].
    unfold rd, wr.
    split; intros Hs.
    + rewrite Hs. cbn.
      assert (Hr : _remain (obj (reconcile clock w)) = 0).
      { clear H. destruct w as [[d a i s r u] n].
        unfold reconcile in *; unfold_updates; cbn in *.
        repeat match goal with
          | H : context [String.eqb ?x ?y] |- _ =>
              destruct (String.eqb_spec x y); subst; cbn in *; try congruence
          | H : context [match ?x with Some _ => _ | None => _ end] |- _ =>
              destruct x; cbn in *; try congruence
          | H : context [(?x >? ?y)%Z] |- _ =>
              destruct (x >? y)%Z; cbn in *; try congruence
          end. }
      repeat split; try assumption.
      destruct (reconcile clock w) as [[d a i s r u] n]; cbn in *.
      unfold with_remain; cbn. congruence.
    + apply String.eqb_neq in Hs. rewrite Hs. reflexivity.
Qed.

(** *** The boundary between active and done *)

(** C10, as stated, fails without one clock value for the whole of it.
    An active timer with 5 seconds left and [update_time] 0 has elapsed
    time equal to its remaining time at second 5.  When the clock moves on
    to second 6 after the elapsed-time test, reconciliation leaves
    remaining -1, not 0.  And when reconciliation ran at second 5 (leaving
    'active' with remaining 0) but [done] or [running] is asked at second
    6, the answer is the same and the stored status has become 'done'. *)
Lemma boundary_moves_with_the_clock :
  let t := mkTimer 5 "off" 1 "active" 5 (Some 0) in
  let w := mkWorld t 0 in
  let drifting := fun k : nat => match k with O => 5 | _ => 6 end in
  let w1 := after (_internal_update (fun _ => 5)) w in
  drifting 0%nat - 0 = _remain t /\
  obj (after (_internal_update drifting) w) =
    mkTimer 5 "off" 1 "active" (-1) (Some 6) /\
  obj w1 = mkTimer 5 "off" 1 "active" 0 (Some 5) /\
  exec (fun _ => 6) IsDone w1 =
    (Val (VBool true), mkWorld (mkTimer 5 "off" 1 "done" 0 None) 4) /\
  exec (fun _ => 6) IsRunning w1 =
    (Val (VBool false), mkWorld (mkTimer 5 "off" 1 "done" 0 None) 4).
Proof. cbv zeta. repeat split. Qed.

(** C10 (amended): when the elapsed time of an active timer equals its
    remaining time exactly and every clock reading shows the same second
    [now], reconciliation leaves it active with remaining 0 (the done
    transition requires elapsed strictly greater than remaining); read at
    that same second, [done] answers true and [running] answers false, and
    the stored status is still 'active'. *)
Theorem boundary_elapsed_equals_remaining
    (clock : nat -> Z) (now : Z) d a i r (u : option Z) n :
  (forall k, clock k = now) ->
  match u with Some t0 => now - t0 | None => 0 end = r ->
  let w := mkWorld (mkTimer d a i "active" r u) n in
  let w1 := after (_internal_update clock) w in
  obj w1 = mkTimer d a i "active" 0 (Some now) /\
  fst (exec clock IsDone w1) = Val (VBool true) /\
  _status (obj (after (exec clock IsDone) w1)) = "active" /\
  fst (exec clock IsRunning w1) = Val (VBool false) /\
  _status (obj (after (exec clock IsRunning) w1)) = "active".
Proof.
  intros Hc He. cbv zeta. unfold after.
  rewrite _internal_update_reconcile. cbn [snd].
  assert (H1 : exists m, reconcile clock (mkWorld (mkTimer d a i "active" r u) n)
                         = mkWorld (mkTimer d a i "active" 0 (Some now)) m).
  { unfold reconcile; unfold_updates; cbn.
    destruct u as [t0|]; subst r; rewrite ?Hc.
    - rewrite Z.gtb_ltb, Z.ltb_irrefl, Z.sub_diag. eauto.
    - cbn. eauto. }
  destruct H1 as [m ->]. cbn [obj].
  unfold exec, done, running, bind.
  rewrite !time_remaining_reconcile.
  unfold reconcile; unfold_updates; cbn. rewrite !Hc.
  rewrite Z.sub_diag. cbn. repeat split.
Qed.

Lemma boundary_elapsed_equals_remaining_witness :
  let w1 := after (_internal_update (fun _ => 110))
              (mkWorld (mkTimer 10 "off" 1 "active" 10 (Some 100)) 0) in
  obj w1 = mkTimer 10 "off" 1 "active" 0 (Some 110) /\
  fst (exec (fun _ => 110) IsDone w1) = Val (VBool true) /\
  _status (obj (after (exec (fun _ => 110) IsDone) w1)) = "active" /\
  fst (exec (fun _ => 110) IsRunning w1) = Val (VBool false) /\
  _status (obj (after (exec (fun _ => 110) IsRunning) w1)) = "active".
Proof.
  apply (boundary_elapsed_equals_remaining (fun _ => 110) 110
           10 "off" 1 10 (Some 100) 0).
  - intros k; reflexivity.
  - reflexivity.
Defined.

(** *** The terminal state *)

Lemma exec_keeps_done clock op w :
  _status (obj w) = "done" ->
  _status (obj (after (exec clock op) w)) = "done".
Proof.
  destruct w as [[d a i s r u] n]; cbn [obj _status]; intros ->.
  unfold after.
  destruct op as [ |s| |z| | | | | |[z|] [s|]| ];
    unfold_methods; unfold_monad; unfold_updates; cbn; try reflexivity;
    repeat match goal with
      | |- context [valid_status ?x] => destruct (valid_status x); cbn
      | |- context [(?x <=? 0)%Z] => destruct (x <=? 0)%Z; cbn
      | |- context [?x || true] => rewrite orb_true_r; cbn
      end; reflexivity.
Qed.

(** C3: the done state is terminal.  From a timer whose status is 'done',
    every operation (a read, [set_status] with any argument, valid or not,
    [set_remaining] with any integer, [start], [pause], [update], [end]),
    under any clock, leaves the status 'done', and so does every sequence
    of operations. *)
Theorem done_is_terminal (t : Timer) :
  _status t = "done" ->
  (forall clock op n,
      _status (obj (after (exec clock op) (mkWorld t n))) = "done") /\
  (forall calls, _status (steps calls t) = "done").
Proof.
  intros Hd. split.
  - intros clock op n. now apply exec_keeps_done.
  - intros calls. revert t Hd.
    induction calls as [|[clock op] rest IH]; intros t Hd; cbn [steps].
    + exact Hd.
    + apply IH. unfold step. now apply exec_keeps_done.
Qed.

Lemma done_is_terminal_witness :
  _status (steps [((fun _ => 7), SetRemaining 50);
                  ((fun _ => 8), Start);
                  ((fun _ => 9), SetStatus "active")]
             (mkTimer 10 "off" 1 "done" 0 None)) = "done".
Proof.
  apply (proj2 (done_is_terminal (mkTimer 10 "off" 1 "done" 0 None) eq_refl)).
Defined.

(** *** Failure *)

Lemma total_ret {A} (a : A) : total (ret a).
Proof. intros w; eexists; reflexivity. Qed.

Lemma total_rd {A} (f : Timer -> A) : total (rd f).
Proof. intros w; eexists; reflexivity. Qed.

Lemma total_wr f : total (wr f).
Proof. intros w; eexists; reflexivity. Qed.

Lemma total_time_time clock : total (time_time clock).
Proof. intros w; eexists; reflexivity. Qed.

Lemma total_bind {A B} (m : M A) (f : A -> M B) :
  total m -> (forall a, total (f a)) -> total (bind m f).
Proof.
  intros Hm Hf w. unfold bind.
  destruct (Hm w) as [a Ha]. destruct (m w) as [r w1]. cbn in Ha. subst r.
  apply Hf.
Qed.

Lemma total_if {A} (b : bool) (m1 m2 : M A) :
  total m1 -> total m2 -> total (if b then m1 else m2).
Proof. destruct b; auto. Qed.

Create HintDb timer_total.
#[local] Hint Resolve total_ret total_rd total_wr total_time_time total_if
  : timer_total.
#[local] Hint Extern 2 (total (bind _ _)) =>
  apply total_bind; [|intros ?] : timer_total.
#[local] Hint Extern 2 (total (match ?x with Some _ => _ | None => _ end)) =>
  destruct x : timer_total.

Lemma total_end : total end_.
Proof. unfold end_. auto with timer_total. Qed.

Lemma total__seconds_since_check clock : total (_seconds_since_check clock).
Proof. unfold _seconds_since_check. auto with timer_total. Qed.

Lemma total__internal_update clock : total (_internal_update clock).
Proof.
  intros w. rewrite _internal_update_reconcile. eexists; reflexivity.
Qed.

#[local] Hint Resolve total_end total__seconds_since_check
  total__internal_update : timer_total.

Lemma total_status_set clock s :
  valid_status s = true -> total (status_set clock s).
Proof.
  intros Hv. unfold status_set, status. rewrite Hv. cbn [negb].
  auto 10 with timer_total.
Qed.

Lemma total_time_remaining clock : total (time_remaining clock).
Proof. unfold time_remaining. auto with timer_total. Qed.

Lemma total_time_remaining_set clock z : total (time_remaining_set clock z).
Proof. unfold time_remaining_set. auto 10 with timer_total. Qed.

#[local] Hint Resolve total_status_set total_time_remaining
  total_time_remaining_set : timer_total.


Lemma status_set_invalid clock s w :
  valid_status s = false -> status_set clock s w = (Raise ValueError, w).
Proof. intros Hv. unfold status_set. rewrite Hv. reflexivity. Qed.


(** *** Invariants of the reachable states *)

Ltac split_status_argument s :=
  let Hv := fresh "Hv" in
  destruct (valid_status s) eqn:Hv;
  [ apply valid_status_true in Hv; destruct Hv as [-> | [-> | ->]]
  | unfold exec, update, status_set, time_remaining_set; unfold_monad;
    rewrite ?Hv ].

Ltac split_tests :=
  repeat (cbn;
    match goal with
    | |- context [(?x >? ?y)%Z] => rewrite (Z.gtb_ltb x y)
    | |- context [(?x <? ?y)%Z] => destruct (Z.ltb_spec x y)
    | |- context [(?x <=? ?y)%Z] => destruct (Z.leb_spec x y)
    end).

Ltac close_invariant :=
  unfold state_invariant, done_is_cleared, paused_has_no_update_time;
  cbn; repeat split; intros; try congruence; try discriminate; try lia.

Lemma exec_keeps_invariant clock op w :
  state_invariant (obj w) ->
  state_invariant (obj (after (exec clock op) w)) /\
  (steady clock -> 0 <= _remain (obj w) ->
   0 <= _remain (obj (after (exec clock op) w))).
Proof.
  destruct w as [[d a i s r u] n].
  unfold state_invariant at 1, done_is_cleared at 1,
    paused_has_no_update_time at 1.
  cbn [obj _status _remain update_time].
  intros (Hv & Hd & Hp). unfold after.
  assert (Hk : steady clock -> forall k, clock k = clock 0%nat) by (intros H; exact H).
  apply valid_status_true in Hv. destruct Hv as [-> | [-> | ->]].
  - (* active *)
    clear Hd Hp.
    destruct op as [ |s| |z| | | | | |[z|] [s|]| ];
      try split_status_argument s;
      destruct u as [u|];
      unfold_methods; unfold_monad; unfold_updates;
      split_tests;
      (split; [close_invariant
              | intros Hst Hr; cbn;
                rewrite ?(Hk Hst (S n)), ?(Hk Hst (S (S n))),
                  ?(Hk Hst (S (S (S n)))), ?(Hk Hst (S (S (S (S n))))),
                  ?(Hk Hst (S (S (S (S (S n)))))) in *;
                rewrite ?(Hk Hst n) in *; try lia]).
  - (* paused *)
    rewrite (Hp eq_refl). clear Hd Hp.
    destruct op as [ |s| |z| | | | | |[z|] [s|]| ];
      try split_status_argument s;
      unfold_methods; unfold_monad; unfold_updates;
      split_tests;
      (split; [close_invariant | intros Hst Hr; cbn; try lia]).
  - (* done *)
    destruct (Hd eq_refl) as [Hr0 Hu0]. subst r u.
    clear Hd Hp.
    destruct op as [ |s| |z| | | | | |[z|] [s|]| ];
      try split_status_argument s;
      unfold_methods; unfold_monad; unfold_updates;
      split_tests;
      (split; [close_invariant | intros Hst Hr; cbn; try lia]).
Qed.

Lemma steps_keep_invariant calls t :
  state_invariant t ->
  state_invariant (steps calls t) /\
  (Forall (fun call => steady (fst call)) calls -> 0 <= _remain t ->
   0 <= _remain (steps calls t)).
Proof.
  revert t. induction calls as [|[clock op] rest IH]; intros t Hi; cbn [steps].
  - split; [exact Hi | intros _ H; exact H].
  - destruct (exec_keeps_invariant clock op (mkWorld t 0) Hi) as [Hi1 Hn1].
    destruct (IH (step clock op t) Hi1) as [Hi2 Hn2].
    split; [exact Hi2|].
    intros Hall Hr. inversion Hall as [|x l Hx Hl]; subst.
    apply Hn2; [exact Hl|]. apply Hn1; assumption.
Qed.

(** C4, as stated, fails on the range of the remaining time.  Nothing
    clamps it to the duration: [set_remaining(50)] on a new 10-second timer
    stores 50.  It can also become negative when the clock moves on to the
    next second between the elapsed-time test and the decrement of one
    reconciliation (readings 5, 6, 6 on a timer with 5 seconds left). *)
Lemma remaining_leaves_range :
  let grown := steps [((fun _ => 0), SetRemaining 50)] (fresh 0 10 "off") in
  let drifting := fun k : nat => match k with O => 5 | _ => 6 end in
  let sunk := steps [(drifting, GetRemaining)] (fresh 0 5 "off") in
  grown = mkTimer 10 "off" 1 "active" 50 (Some 0) /\
  ~ data_model_invariant grown /\
  sunk = mkTimer 5 "off" 1 "active" (-1) (Some 6) /\
  ~ data_model_invariant sunk.
Proof.
  cbv zeta. repeat split.
  - intros (_ & _ & H). unfold remaining_in_range in H. cbn in H. lia.
  - intros (_ & _ & H). unfold remaining_in_range in H. cbn in H. lia.
Qed.

(** C4 (amended): every state reached from a newly constructed Timer
    (positive duration, optional id, optional non-negative initial
    remaining time) by any sequence of operations, under any clock, has
    one of the three statuses, has remaining 0 and no [update_time] when
    done, and has no [update_time] when paused; when every operation sees
    one clock value, the remaining time is never negative.  No upper bound
    by the duration holds. *)
Theorem reachable_states_invariant
    (class_time duration : Z) (act : string) (ident remaining : option Z)
    (calls : list ((nat -> Z) * Op)) :
  0 < duration ->
  (forall r, remaining = Some r -> 0 <= r) ->
  let t := steps calls
             (Timer_init class_time duration act ident remaining
                None None None) in
  valid_status (_status t) = true /\
  done_is_cleared t /\
  paused_has_no_update_time t /\
  (Forall (fun call => steady (fst call)) calls -> 0 <= _remain t).
Proof.
  intros Hd Hr. cbv zeta.
  set (t0 := Timer_init class_time duration act ident remaining None None None).
  assert (H0 : state_invariant t0).
  { unfold t0, Timer_init. destruct remaining; close_invariant. }
  assert (Hn : 0 <= _remain t0).
  { unfold t0, Timer_init. destruct remaining as [r|]; cbn; [auto | lia]. }
  destruct (steps_keep_invariant calls t0 H0) as [(Hv & Hdn & Hp) Hnn].
  repeat split; auto.
  all: try (apply Hdn; assumption).
Qed.

Lemma reachable_states_invariant_witness :
  let t := steps [((fun _ => 104), GetRemaining);
                  ((fun _ => 104), Pause);
                  ((fun _ => 204), GetRemaining);
                  ((fun _ => 204), Start);
                  ((fun _ => 211), GetRemaining)]
             (Timer_init 100 10 "poweroff" None None None None None) in
  valid_status (_status t) = true /\
  done_is_cleared t /\
  paused_has_no_update_time t /\
  (Forall (fun call => steady (fst call))
     [((fun _ : nat => 104), GetRemaining);
      ((fun _ => 104), Pause);
      ((fun _ => 204), GetRemaining);
      ((fun _ => 204), Start);
      ((fun _ => 211), GetRemaining)] -> 0 <= _remain t).
Proof.
  apply (reachable_states_invariant 100 10 "poweroff" None None).
  - lia.
  - intros r H; discriminate H.
Defined.

(** *** Clock readings within one operation *)

Section SameRun.

Variables clock clock' : nat -> Z.

Lemma same_run_ret {A} (a : A) : same_run clock clock' (ret a) (ret a).
Proof. intros w; split; [apply Nat.le_refl | reflexivity]. Qed.

Lemma same_run_rd {A} (f : Timer -> A) : same_run clock clock' (rd f) (rd f).
Proof. intros w; split; [apply Nat.le_refl | reflexivity]. Qed.

Lemma same_run_wr f : same_run clock clock' (wr f) (wr f).
Proof. intros w; split; [apply Nat.le_refl | reflexivity]. Qed.

Lemma same_run_raise {A} e : same_run clock clock' (@raise A e) (raise e).
Proof. intros w; split; [apply Nat.le_refl | reflexivity]. Qed.

Lemma same_run_time_time :
  same_run clock clock' (time_time clock) (time_time clock').
Proof.
  intros w; split; unfold after, time_time; cbn.
  - apply Nat.le_succ_diag_r.
  - intros H. rewrite (H (ticks w)); [reflexivity | lia].
Qed.

Lemma same_run_bind {A B} (m m' : M A) (f f' : A -> M B) :
  same_run clock clock' m m' ->
  (forall a, same_run clock clock' (f a) (f' a)) ->
  same_run clock clock' (bind m f) (bind m' f').
Proof.
  intros Hm Hf w. destruct (Hm w) as [Hle Heq].
  unfold after, bind in *.
  destruct (m w) as [[a|e] w1] eqn:Em; cbn [snd] in *.
  - destruct (Hf a w1) as [Hle1 Heq1]. unfold after in *.
    split; [lia|].
    intros H. rewrite Heq by (intros j Hj; apply H; lia).
    apply Heq1. intros j Hj; apply H; lia.
  - split; [exact Hle|].
    intros H. rewrite Heq by exact H. reflexivity.
Qed.

Ltac same_run_step :=
  first
    [ apply same_run_ret | apply same_run_rd | apply same_run_wr
    | apply same_run_raise | apply same_run_time_time
    | match goal with H : _ |- _ => apply H end
    | apply same_run_bind; [|intros ?]
    | match goal with
      | |- same_run _ _ (if ?b then _ else _) _ => destruct b
      | |- same_run _ _ (match ?x with Some _ => _ | None => _ end) _ =>
          destruct x
      end ].

Lemma same_run__internal_update :
  same_run clock clock' (_internal_update clock) (_internal_update clock').
Proof. unfold _internal_update, _seconds_since_check. repeat same_run_step. Qed.

Lemma same_run_status_set s :
  same_run clock clock' (status_set clock s) (status_set clock' s).
Proof.
  pose proof same_run__internal_update.
  unfold status_set, status, end_. repeat same_run_step.
Qed.

Lemma same_run_time_remaining_set z :
  same_run clock clock' (time_remaining_set clock z) (time_remaining_set clock' z).
Proof.
  pose proof same_run__internal_update.
  unfold time_remaining_set, end_. repeat same_run_step.
Qed.

Lemma same_run_exec op :
  same_run clock clock' (exec clock op) (exec clock' op).
Proof.
  pose proof same_run__internal_update.
  pose proof same_run_status_set.
  pose proof same_run_time_remaining_set.
  destruct op;
    unfold exec, pause, update, start, done, paused, running,
      time_remaining, status, end_;
    repeat same_run_step.
Qed.

End SameRun.

Lemma reconcile_readings clock w :
  (ticks w <= ticks (reconcile clock w) <= ticks w + 3)%nat /\
  (_status (obj (reconcile clock w)) = "paused" ->
   ticks (reconcile clock w) = ticks w) /\
  (_status (obj (reconcile clock w)) = _status (obj w) \/
   _status (obj (reconcile clock w)) = "done").
Proof.
  destruct w as [[d a i s r u] n]. unfold reconcile; unfold_updates; cbn.
  destruct (s =? "paused") eqn:Ep; cbn; [repeat split; auto; lia|].
  destruct (s =? "done") eqn:Ed; cbn; [repeat split; auto; lia|].
  destruct (s =? "active") eqn:Ea; cbn.
  - apply String.eqb_eq in Ea. subst s.
    destruct u as [u|]; cbn;
      [destruct (clock n - u >? r)%Z | destruct (0 >? r)%Z]; cbn;
      repeat split; auto; try lia; discriminate.
  - destruct u; cbn; repeat split; auto; try lia;
      intros ->; discriminate.
Qed.

(** The setter of [status] reads the clock at most three times: the extra
    reading of the paused-to-active transition happens only when
    reconciliation found the timer paused and read nothing. *)
Lemma status_set_readings clock s w :
  (ticks (after (status_set clock s) w) <= ticks w + 3)%nat.
Proof.
  unfold after, status_set.
  destruct (valid_status s); cbn [negb]; [|cbn; lia].
  unfold bind. rewrite _internal_update_reconcile.
  destruct (reconcile_readings clock w) as [Hle [Hp _]].
  destruct (reconcile clock w) as [[d a i s1 r u] n1]. cbn in Hle, Hp.
  unfold status, end_; unfold_monad; unfold_updates; cbn.
  destruct ((s =? "done") || (s1 =? "done")); cbn; [lia|].
  destruct (String.eqb_spec s1 "paused") as [->|]; cbn.
  - rewrite (Hp eq_refl).
    destruct (s =? "active"); cbn;
      repeat match goal with
        | |- context [if ?b then _ else _] => destruct b; cbn
        end; lia.
  - repeat match goal with
      | |- context [if ?b then _ else _] => destruct b; cbn
      end; lia.
Qed.

Lemma time_remaining_set_readings clock z w :
  (ticks (after (time_remaining_set clock z) w) <= ticks w + 3)%nat.
Proof.
  unfold after, time_remaining_set.
  destruct (z <=? 0)%Z; [cbn; lia|].
  unfold bind. rewrite _internal_update_reconcile.
  destruct (reconcile_readings clock w) as [Hle _].
  unfold rd, wr. destruct (_ =? "done"); cbn; lia.
Qed.

Lemma time_remaining_readings clock w :
  (ticks (after (time_remaining clock) w) <= ticks w + 3)%nat.
Proof.
  unfold after. rewrite time_remaining_reconcile. cbn.
  apply reconcile_readings.
Qed.

Lemma reads_le_ret {A} (a : A) : reads_le 0 (ret a).
Proof. intros w; cbn; lia. Qed.

Lemma reads_le_rd {A} (f : Timer -> A) : reads_le 0 (rd f).
Proof. intros w; cbn; lia. Qed.

Lemma reads_le_wr f : reads_le 0 (wr f).
Proof. intros w; cbn; lia. Qed.

Lemma reads_le_time_time clock : reads_le 1 (time_time clock).
Proof. intros w; cbn; lia. Qed.

Lemma reads_le_end : reads_le 0 end_.
Proof. intros w; cbn; lia. Qed.

Lemma reads_le_weaken {A} k k' (m : M A) :
  (k <= k')%nat -> reads_le k m -> reads_le k' m.
Proof. intros Hk Hm w. specialize (Hm w). lia. Qed.

Lemma reads_le_bind {A B} k1 k2 (m : M A) (f : A -> M B) :
  reads_le k1 m -> (forall a, reads_le k2 (f a)) ->
  reads_le (k1 + k2) (bind m f).
Proof.
  intros Hm Hf w. specialize (Hm w). unfold after, bind in *.
  destruct (m w) as [[a|e] w1]; cbn [snd] in *.
  - specialize (Hf a w1). unfold after in Hf. lia.
  - lia.
Qed.

Lemma reads_le_if {A} k (b : bool) (m1 m2 : M A) :
  reads_le k m1 -> reads_le k m2 -> reads_le k (if b then m1 else m2).
Proof. destruct b; auto. Qed.

Lemma reads_le__internal_update clock : reads_le 3 (_internal_update clock).
Proof.
  intros w. unfold after. rewrite _internal_update_reconcile.
  apply reconcile_readings.
Qed.

Lemma reads_le_exec clock op : reads_le 6 (exec clock op).
Proof.
  pose proof (reads_le__internal_update clock) as Hiu.
  pose proof (fun s => status_set_readings clock s : reads_le 3 _) as Hss.
  pose proof (fun z => time_remaining_set_readings clock z : reads_le 3 _) as Hts.
  pose proof (time_remaining_readings clock : reads_le 3 _) as Htr.
  destruct op as [ |s| |z| | | | | |r s| ]; unfold exec.
  - apply (reads_le_weaken 0); [lia|].
    apply (reads_le_bind 0 0); [apply reads_le_rd | intros; apply reads_le_ret].
  - apply (reads_le_weaken 3); [lia|].
    apply (reads_le_bind 3 0); [apply Hss | intros; apply reads_le_ret].
  - apply (reads_le_weaken 3); [lia|].
    apply (reads_le_bind 3 0); [apply Htr | intros; apply reads_le_ret].
  - apply (reads_le_weaken 3); [lia|].
    apply (reads_le_bind 3 0); [apply Hts | intros; apply reads_le_ret].
  - apply (reads_le_weaken 3); [lia|].
    apply (reads_le_bind 3 0); [|intros; apply reads_le_ret].
    unfold running, status.
    apply (reads_le_bind 3 0); [apply Htr | intros r].
    apply reads_le_if; [|apply reads_le_ret].
    apply (reads_le_bind 0 0); [apply reads_le_rd | intros; apply reads_le_ret].
  - apply (reads_le_weaken 0); [lia|].
    apply (reads_le_bind 0 0); [|intros; apply reads_le_ret].
    unfold paused, status.
    apply (reads_le_bind 0 0); [apply reads_le_rd | intros; apply reads_le_ret].
  - apply (reads_le_weaken 3); [lia|].
    apply (reads_le_bind 3 0); [|intros; apply reads_le_ret].
    unfold done.
    apply (reads_le_bind 3 0); [apply Htr | intros r].
    apply reads_le_if; [apply reads_le_ret|].
    apply (reads_le_bind 0 0); [apply reads_le_rd | intros; apply reads_le_ret].
  - apply (reads_le_weaken 0); [lia|].
    apply (reads_le_bind 0 0); [apply reads_le_end | intros; apply reads_le_ret].
  - apply (reads_le_weaken 4); [lia|].
    apply (reads_le_bind 4 0); [|intros; apply reads_le_ret].
    unfold start.
    apply (reads_le_bind 0 4); [apply reads_le_rd | intros s].
    apply reads_le_if; [apply (reads_le_weaken 0); [lia | apply reads_le_ret]|].
    apply (reads_le_bind 1 3); [apply reads_le_time_time | intros now].
    apply (reads_le_bind 0 3); [apply reads_le_wr | intros; apply Hss].
  - apply (reads_le_bind 6 0); [|intros; apply reads_le_ret].
    unfold update.
    apply (reads_le_bind 3 3).
    + destruct r; [apply Hts | apply (reads_le_weaken 0); [lia | apply reads_le_ret]].
    + intros _. destruct s; [apply Hss | apply (reads_le_weaken 0); [lia | apply reads_le_ret]].
  - apply (reads_le_bind 6 0); [|intros; apply reads_le_ret].
    unfold pause, status.
    apply (reads_le_bind 3 3); [apply Hiu | intros _].
    apply (reads_le_bind 0 3); [apply reads_le_rd | intros s].
    apply reads_le_if; [apply (reads_le_weaken 0); [lia | apply reads_le_ret]|].
    apply (reads_le_bind 3 0); [apply Hss | intros; apply reads_le_wr].
Qed.

(** The bound of six readings is met: [pause] on a running timer
    reconciles twice, three readings each. *)
Example pause_reads_six :
  readings (exec (fun _ => 2) Pause)
    (mkWorld (mkTimer 5 "off" 1 "active" 5 (Some 0)) 0) = 6%nat.
Proof. reflexivity. Qed.

(** C8, as stated, fails: one reconciliation reads the clock three times.
    Reading the remaining time of an active timer with 5 seconds left and
    [update_time] 0 takes three readings; with the single sample 5 it
    returns 0, and when the clock moves on from 5 to 6 after the first
    reading it returns -1 and stores 6. *)
Lemma drifting_clock_changes_result :
  let w := mkWorld (mkTimer 5 "off" 1 "active" 5 (Some 0)) 0 in
  let single := fun _ : nat => 5 in
  let drifting := fun k : nat => match k with O => 5 | _ => 6 end in
  drifting 0%nat = single 0%nat /\
  readings (exec drifting GetRemaining) w = 3%nat /\
  exec single GetRemaining w =
    (Val (VInt 0), mkWorld (mkTimer 5 "off" 1 "active" 0 (Some 5)) 3) /\
  exec drifting GetRemaining w =
    (Val (VInt (-1)), mkWorld (mkTimer 5 "off" 1 "active" (-1) (Some 6)) 3).
Proof. cbv zeta. repeat split. Qed.

(** C8 (amended): an operation may read the clock several times, a
    reconciliation up to three times and an operation up to six times.
    Its result and the state it leaves are determined by the state before
    and the readings it takes: a run under another clock that agrees on
    those readings is the same, and when all those readings show one value
    [now] the run is the single-sample run at [now]. *)
Theorem result_determined_by_readings (clock : nat -> Z) (op : Op) (w : World) :
  (readings (_internal_update clock) w <= 3)%nat /\
  (readings (exec clock op) w <= 6)%nat /\
  (forall clock' : nat -> Z,
      (forall j, (j < readings (exec clock op) w)%nat ->
                 clock' (ticks w + j)%nat = clock (ticks w + j)%nat) ->
      exec clock' op w = exec clock op w) /\
  (forall now : Z,
      (forall j, (j < readings (exec clock op) w)%nat ->
                 clock (ticks w + j)%nat = now) ->
      exec clock op w = exec (fun _ => now) op w).
Proof.
  assert (Hagree : forall clock' : nat -> Z,
             (forall j, (j < readings (exec clock op) w)%nat ->
                        clock' (ticks w + j)%nat = clock (ticks w + j)%nat) ->
             exec clock' op w = exec clock op w).
  { intros clock' H.
    destruct (same_run_exec clock clock' op w) as [Hle Heq].
    apply Heq. intros j Hj. unfold readings in H.
    replace j with (ticks w + (j - ticks w))%nat by lia.
    apply H. lia. }
  unfold readings.
  pose proof (reads_le__internal_update clock w).
  pose proof (reads_le_exec clock op w).
  repeat split; try lia; try exact Hagree.
  intros now H1. symmetry. apply Hagree.
  intros j Hj. symmetry. now apply H1.
Qed.

End TimerFacts.

(** ** More on the Timer: what a caller can rely on *)

Module TimerMore.
Import TimerModel.
Import TimerFacts.

(** X1: once [end] has run, the object never changes again and the clock
    is never read again: every operation, with any argument and under any
    clock, leaves the ended timer exactly as it is ([end] itself included,
    so [end] is idempotent). *)
Theorem ended_timer_is_fixed (clock : nat -> Z) (op : Op) (w : World) :
  let w0 := after end_ w in
  obj w0 = mkTimer (timer_duration (obj w)) (action (obj w)) (id (obj w))
             "done" 0 None /\
  after (exec clock op) w0 = w0.
Proof.
  cbv zeta. destruct w as [[d a i s r u] n]. split; [reflexivity|].
  unfold after.
  destruct op as [ |s0| |z| | | | | |[z|] [s0|]| ];
    unfold_methods; unfold_monad; unfold_updates; cbn; try reflexivity;
    repeat match goal with
      | |- context [valid_status ?x] => destruct (valid_status x); cbn
      | |- context [(?x <=? 0)%Z] => destruct (x <=? 0)%Z; cbn
      | |- context [?x || true] => rewrite orb_true_r; cbn
      end; reflexivity.
Qed.

(** X2: no time accrues while paused.  On a paused timer (no
    [update_time]) every read, under any clock, leaves the object and the
    clock untouched: the remaining time reads the stored value, the status
    reads 'paused', [paused] is true, [running] is false and [done] is
    true exactly when the stored remaining time is not positive. *)
Theorem paused_timer_reads (clock : nat -> Z) d a i r n :
  let w := mkWorld (mkTimer d a i "paused" r None) n in
  exec clock GetRemaining w = (Val (VInt r), w) /\
  exec clock GetStatus w = (Val (VStr "paused"), w) /\
  exec clock IsPaused w = (Val (VBool true), w) /\
  exec clock IsRunning w = (Val (VBool false), w) /\
  exec clock IsDone w = (Val (VBool (r <=? 0)%Z), w).
Proof.
  cbv zeta. repeat split;
    unfold_methods; unfold_monad; unfold_updates; cbn;
    try reflexivity;
    rewrite ?Z.gtb_ltb;
    repeat match goal with
      | |- context [(?x <? ?y)%Z] => destruct (x <? y)%Z; cbn
      | |- context [(?x <=? ?y)%Z] => destruct (x <=? y)%Z; cbn
      end; reflexivity.
Qed.

(** X3: polling does not disturb the countdown.  For a timer whose active
    state carries an [update_time], reading the remaining time at second
    [now1] and again at a later second [now2] returns, and leaves behind,
    exactly what a single read at [now2] would (one clock value per
    read). *)
Theorem polling_is_transparent
    (c1 c2 : nat -> Z) (now1 now2 : Z) (t : Timer) (n : nat) :
  (forall k, c1 k = now1) ->
  (forall k, c2 k = now2) ->
  now1 <= now2 ->
  (_status t = "active" -> update_time t <> None) ->
  let w1 := after (time_remaining c1) (mkWorld t n) in
  fst (time_remaining c2 w1) = fst (time_remaining c2 (mkWorld t n)) /\
  obj (after (time_remaining c2) w1) =
    obj (after (time_remaining c2) (mkWorld t n)).
Proof.
  intros H1 H2 Hle Hu. cbv zeta. unfold after.
  rewrite !time_remaining_reconcile. cbn [fst snd].
  enough (obj (reconcile c2 (reconcile c1 (mkWorld t n))) =
          obj (reconcile c2 (mkWorld t n))) as E by (rewrite E; auto).
  destruct t as [d a i s r u]. cbn in Hu.
  unfold reconcile; unfold_updates; cbn.
  destruct (String.eqb_spec s "paused") as [->|Hp]; cbn; [reflexivity|].
  destruct (String.eqb_spec s "done") as [->|Hd]; cbn; [reflexivity|].
  destruct (String.eqb_spec s "active") as [->|Ha]; cbn.
  - destruct u as [u|]; [|now destruct (Hu eq_refl)].
    rewrite !H1, !H2. rewrite !Z.gtb_ltb.
    destruct (Z.ltb_spec r (now1 - u)); cbn.
    + destruct (Z.ltb_spec r (now2 - u)); [reflexivity | lia].
    + rewrite ?H2, ?Z.gtb_ltb.
      destruct (Z.ltb_spec (r - (now1 - u)) (now2 - now1));
        destruct (Z.ltb_spec r (now2 - u)); try lia; cbn; [reflexivity|].
      f_equal. lia.
  - destruct u as [u|]; cbn;
      destruct (String.eqb_spec s "paused"); try congruence;
      destruct (String.eqb_spec s "done"); try congruence;
      destruct (String.eqb_spec s "active"); try congruence; reflexivity.
Qed.

Lemma polling_is_transparent_witness :
  fst (time_remaining (fun _ => 107)
         (after (time_remaining (fun _ => 103))
            (mkWorld (mkTimer 10 "off" 1 "active" 10 (Some 100)) 0))) =
  Val 3.
Proof.
  refine (eq_trans
    (proj1 (polling_is_transparent (fun _ => 103) (fun _ => 107) 103 107
              (mkTimer 10 "off" 1 "active" 10 (Some 100)) 0 _ _ _ _)) _).
  - intros k; reflexivity.
  - intros k; reflexivity.
  - lia.
  - cbn; intros _ H; discriminate H.
  - reflexivity.
Defined.

(** X4: the time between [pause] and [start] is not counted.  A running
    timer with [r] seconds left is paused at second [p] (before it
    expires), started again at any second [s] and read at second [q]
    (before it expires): pausing leaves [r - (p - u)] seconds, starting
    keeps them and restarts the count at [s], and the read returns
    [r - (p - u) - (q - s)], whatever lies between [p] and [s]. *)
Theorem paused_interval_not_counted
    (c1 c2 c3 : nat -> Z) (p s q : Z) d a i (r u : Z) (n : nat) :
  (forall k, c1 k = p) -> (forall k, c2 k = s) -> (forall k, c3 k = q) ->
  p - u <= r ->
  q - s <= r - (p - u) ->
  let w0 := mkWorld (mkTimer d a i "active" r (Some u)) n in
  let w1 := after (exec c1 Pause) w0 in
  let w2 := after (exec c2 Start) w1 in
  obj w1 = mkTimer d a i "paused" (r - (p - u)) None /\
  obj w2 = mkTimer d a i "active" (r - (p - u)) (Some s) /\
  fst (exec c3 GetRemaining w2) = Val (VInt (r - (p - u) - (q - s))) /\
  obj (after (exec c3 GetRemaining) w2) =
    mkTimer d a i "active" (r - (p - u) - (q - s)) (Some q).
Proof.
  intros H1 H2 H3 Hp Hq. cbv zeta. unfold after.
  unfold_methods; unfold_monad; unfold_updates.
  repeat (cbn; rewrite ?H1, ?H2, ?H3, ?Z.gtb_ltb;
    match goal with
    | |- context [(?x <? ?y)%Z] => destruct (Z.ltb_spec x y); try lia
    end).
  cbn; rewrite ?H1, ?H2, ?H3.
  repeat split;
    first [ reflexivity | f_equal; lia | do 2 f_equal; lia ].
Qed.

Lemma paused_interval_not_counted_witness :
  fst (exec (fun _ => 1006) GetRemaining
         (after (exec (fun _ => 1000) Start)
            (after (exec (fun _ => 104) Pause)
               (mkWorld (mkTimer 10 "poweroff" 1 "active" 10 (Some 100)) 0))))
  = Val (VInt (10 - (104 - 100) - (1006 - 1000))).
Proof.
  refine (proj1 (proj2 (proj2
    (paused_interval_not_counted (fun _ => 104) (fun _ => 1000) (fun _ => 1006)
       104 1000 1006 10 "poweroff" 1 10 100 0 _ _ _ _ _)))).
  - intros k; reflexivity.
  - intros k; reflexivity.
  - intros k; reflexivity.
  - lia.
  - lia.
Defined.

(** X5: setting and reading back.  After [set_remaining(z)] with [z > 0],
    a read of the remaining time in the same second returns [z], unless
    reconciliation found the timer done, in which case it returns 0. *)
Theorem set_then_get_remaining (clock : nat -> Z) (now z : Z) (w : World) :
  (forall k, clock k = now) ->
  0 < z ->
  fst (time_remaining clock (after (time_remaining_set clock z) w)) =
  Val (if _status (obj (after (_internal_update clock) w)) =? "done"
       then 0 else z).
Proof.
  intros Hc Hz. unfold after, time_remaining_set.
  destruct (Z.leb_spec z 0); [lia|].
  unfold bind at 1. rewrite _internal_update_reconcile. cbn [fst snd].
  rewrite time_remaining_reconcile. cbn [fst].
  destruct w as [[d a i s r u] n].
  unfold reconcile; unfold_monad; unfold_updates; cbn.
  destruct (String.eqb_spec s "paused") as [->|Hp]; cbn; [reflexivity|].
  destruct (String.eqb_spec s "done") as [->|Hd]; cbn; [reflexivity|].
  destruct (String.eqb_spec s "active") as [->|Ha]; cbn.
  - destruct u as [u|]; rewrite ?Hc, ?Z.gtb_ltb.
    + destruct (Z.ltb_spec r (now - u)); cbn; [reflexivity|].
      rewrite ?Hc, ?Z.gtb_ltb.
      destruct (Z.ltb_spec z (now - now)); [lia|]. cbn. f_equal. lia.
    + destruct (Z.ltb_spec r 0); cbn; [reflexivity|].
      rewrite ?Hc, ?Z.gtb_ltb.
      destruct (Z.ltb_spec z (now - now)); [lia|]. cbn. f_equal. lia.
  - destruct u as [u|]; cbn;
      repeat match goal with
        | |- context [String.eqb s ?x] =>
            destruct (String.eqb_spec s x); try congruence; cbn
        end; reflexivity.
Qed.

Lemma set_then_get_remaining_witness :
  fst (time_remaining (fun _ => 104)
         (after (time_remaining_set (fun _ => 104) 30)
            (mkWorld (mkTimer 10 "off" 1 "active" 10 (Some 100)) 0))) =
  Val 30.
Proof.
  refine (eq_trans
    (set_then_get_remaining (fun _ => 104) 104 30
       (mkWorld (mkTimer 10 "off" 1 "active" 10 (Some 100)) 0) _ _) _).
  - intros k; reflexivity.
  - lia.
  - reflexivity.
Defined.

(** X6: [update] is not atomic.  With a remaining time and an invalid
    status it raises, but only after the remaining time has been applied:
    the object is what [set_remaining] left, and with a remaining time of
    zero or less the timer has been ended although the call failed. *)
Theorem update_fails_after_set_remaining
    (clock : nat -> Z) (z : Z) (s : string) (w : World) :
  valid_status s = false ->
  exec clock (Update (Some z) (Some s)) w =
    (Raise ValueError, after (time_remaining_set clock z) w) /\
  (z <= 0 ->
   obj (after (exec clock (Update (Some z) (Some s))) w) =
     mkTimer (timer_duration (obj w)) (action (obj w)) (id (obj w))
       "done" 0 None).
Proof.
  intros Hv.
  assert (E : exec clock (Update (Some z) (Some s)) w =
              (Raise ValueError, after (time_remaining_set clock z) w)).
  { unfold exec, update, after, bind.
    destruct (total_time_remaining_set clock z w) as [v Hval].
    destruct (time_remaining_set clock z w) as [res w1]. cbn in Hval. subst res.
    rewrite (status_set_invalid clock s w1 Hv). reflexivity. }
  split; [exact E|].
  intros Hz. unfold after at 1. rewrite E. cbn [snd].
  unfold after, time_remaining_set.
  destruct (Z.leb_spec z 0); [reflexivity | lia].
Qed.

Lemma update_fails_after_set_remaining_witness :
  exec (fun _ => 104) (Update (Some 0) (Some "stopped"))
    (mkWorld (mkTimer 10 "off" 1 "active" 10 (Some 100)) 0) =
  (Raise ValueError,
   after (time_remaining_set (fun _ => 104) 0)
     (mkWorld (mkTimer 10 "off" 1 "active" 10 (Some 100)) 0)).
Proof.
  apply (proj1 (update_fails_after_set_remaining (fun _ => 104) 0 "stopped"
                  (mkWorld (mkTimer 10 "off" 1 "active" 10 (Some 100)) 0)
                  eq_refl)).
Defined.

(** X7: the three predicates, asked of the same timer at the same moment.
    For a timer with a recognised status, [running] excludes both [paused]
    and [done], and at least one of the three holds.  ([paused] and [done]
    can hold together: a paused timer with no time left.) *)
Theorem predicates_cover_and_running_excludes
    (clock : nat -> Z) (w : World) :
  valid_status (_status (obj w)) = true ->
  exists br bp bd,
    fst (running clock w) = Val br /\
    fst (paused w) = Val bp /\
    fst (done clock w) = Val bd /\
    (br = true -> bp = false /\ bd = false) /\
    (br || bp || bd = true).
Proof.
  intros Hv. destruct w as [[d a i s r u] n]. cbn in Hv.
  apply valid_status_true in Hv.
  unfold running, done, paused, status, bind.
  rewrite !time_remaining_reconcile.
  unfold reconcile; unfold_monad; unfold_updates.
  destruct Hv as [-> | [-> | ->]]; cbn;
    try (destruct u as [u|]; cbn);
    rewrite ?Z.gtb_ltb;
    repeat match goal with
      | |- context [(?x <? ?y)%Z] => destruct (Z.ltb_spec x y); cbn
      | |- context [(?x <=? ?y)%Z] => destruct (Z.leb_spec x y); cbn
      end;
    cbn in *; try lia;
    do 3 eexists;
    (split; [reflexivity|]); (split; [reflexivity|]); (split; [reflexivity|]);
    (split; [intros Hbr; try discriminate Hbr; split; reflexivity
            | cbn; rewrite ?orb_true_r; reflexivity]).
Qed.

Lemma predicates_cover_and_running_excludes_witness :
  exists br bp bd,
    fst (running (fun _ => 104)
           (mkWorld (mkTimer 10 "off" 1 "active" 10 (Some 100)) 0)) = Val br /\
    fst (paused
           (mkWorld (mkTimer 10 "off" 1 "active" 10 (Some 100)) 0)) = Val bp /\
    fst (done (fun _ => 104)
           (mkWorld (mkTimer 10 "off" 1 "active" 10 (Some 100)) 0)) = Val bd /\
    (br = true -> bp = false /\ bd = false) /\
    (br || bp || bd = true).
Proof.
  apply (predicates_cover_and_running_excludes (fun _ => 104)
           (mkWorld (mkTimer 10 "off" 1 "active" 10 (Some 100)) 0) eq_refl).
Defined.

End TimerMore.

(** ** Responses of the API *)

Module ResponsesFacts.
Import Helpers.
Import Responses.

Lemma eq_zero_ne_zero (v : json) : eq_zero v = negb (ne_zero v).
Proof. destruct v; cbn; try reflexivity; now rewrite negb_involutive. Qed.

Lemma dict_lookup_In key items v :
  dict_lookup key items = Some v -> In (key, v) items.
Proof.
  induction items as [|[k x] rest IH]; cbn; [discriminate|].
  destruct (String.eqb_spec k key) as [->|].
  - intros [= ->]. now left.
  - intros H. right. auto.
Qed.

Lemma dict_lookup_set_same key v items :
  dict_lookup key (dict_set key v items) = Some v.
Proof.
  induction items as [|[k x] rest IH]; cbn.
  - now rewrite String.eqb_refl.
  - destruct (String.eqb_spec k key) as [->|Hn]; cbn.
    + now rewrite String.eqb_refl.
    + apply String.eqb_neq in Hn. now rewrite Hn.
Qed.

Lemma dict_lookup_set_other key key' v items :
  key' <> key ->
  dict_lookup key' (dict_set key v items) = dict_lookup key' items.
Proof.
  intros Hd. induction items as [|[k x] rest IH]; cbn.
  - destruct (String.eqb_spec key key'); [congruence | reflexivity].
  - destruct (String.eqb_spec k key) as [->|Hn]; cbn.
    + destruct (String.eqb_spec key key'); [congruence | reflexivity].
    + destruct (String.eqb_spec k key'); [reflexivity | exact IH].
Qed.

Lemma code_check_true (r : json) :
  code_check r = true ->
  exists items c,
    r = JDict items /\ dict_lookup "code" items = Some c /\ eq_zero c = true.
Proof.
  destruct r; cbn; try discriminate.
  unfold dict_get. destruct (dict_lookup "code" items) as [c|] eqn:E.
  - intros H. exists items, c. auto.
  - cbn. discriminate.
Qed.

(** X8: the two response checks compared.  A response that passes
    [nested_code_check] and has a [code] key passes [code_check].
    [code_check] passes only a dict whose own [code] is zero, so it rejects
    [None], every value that is not a dict and every dict without a
    [code]; [nested_code_check] accepts every value that is not a dict,
    and every dict without a [code] that holds no dict. *)
Theorem code_checks_compared :
  (forall items,
      nested_code_check (JDict items) = true ->
      dict_lookup "code" items <> None ->
      code_check (JDict items) = true) /\
  (forall r,
      code_check r = true ->
      exists items c,
        r = JDict items /\ dict_lookup "code" items = Some c /\
        eq_zero c = true) /\
  (forall r,
      is_dict r = false ->
      nested_code_check r = true /\ code_check r = false) /\
  (forall items,
      dict_lookup "code" items = None ->
      Forall (fun kv => is_dict (snd kv) = false) items ->
      nested_code_check (JDict items) = true /\
      code_check (JDict items) = false).
Proof.
  split; [|split; [|split]].
  - intros items Hn Hc.
    destruct (dict_lookup "code" items) as [c|] eqn:E; [|congruence].
    cbn. unfold dict_get. rewrite E. rewrite eq_zero_ne_zero.
    apply negb_true_iff.
    apply (HelpersFacts.check_sound _ Hn items c).
    + constructor.
    + now apply dict_lookup_In.
  - exact code_check_true.
  - intros r Hd. destruct r; cbn in *; try discriminate; auto.
  - intros items Hc Hall. split.
    + rewrite HelpersFacts.nested_code_check_dict. unfold check_items.
      apply forallb_forall. intros [k v] Hin. cbn [fst snd].
      rewrite Forall_forall in Hall. specialize (Hall _ Hin). cbn in Hall.
      rewrite Hall. cbn. rewrite orb_false_r.
      apply negb_true_iff.
      destruct (String.eqb_spec k "code") as [->|]; [|reflexivity].
      exfalso. clear Hall.
      induction items as [|[k' v'] rest IH]; [contradiction|].
      cbn in Hc. destruct (String.eqb_spec k' "code") as [->|Hne];
        [discriminate|].
      destruct Hin as [[= -> _]|Hin]; [congruence | auto].
    + cbn. unfold dict_get. rewrite Hc. reflexivity.
Qed.

Lemma call_api_accepted
    (in_rate_limits : json -> pyresult bool) (http : http_outcome) (r : json) :
  call_api in_rate_limits http = Ok r ->
  code_check r = true ->
  exists text items,
    http = HttpResponse 200 text (Some (JDict items)) /\
    r = JDict items /\
    eq_zero (dict_get "code" JNone items) = true /\
    in_rate_limits (dict_get "code" JNone items) = Ok false.
Proof.
  intros Hc Hk.
  destruct http as [|sc text body]; cbn in Hc.
  - injection Hc as <-. discriminate.
  - destruct (Z.eqb_spec sc 200) as [->|]; [|injection Hc as <-; discriminate].
    destruct body as [response|]; [|injection Hc as <-; discriminate].
    destruct response; cbn in Hc; try discriminate.
    destruct (in_rate_limits (dict_get "code" JNone items)) as [[|]|] eqn:El;
      try discriminate.
    injection Hc as <-. exists text, items. cbn in Hk. auto.
Qed.

(** X9: what [call_api] hands back.  A request that raised, and any
    status other than 200, give [None]; a 200 answer whose text is not JSON
    gives the text; a 200 answer whose JSON is not an object raises
    [AttributeError].  So when [call_api] returns a response that
    [code_check] accepts, the status was 200, the body was a JSON object,
    the response is that object, and its [code] is zero and no rate-limit
    code. *)
Theorem call_api_outcomes (in_rate_limits : json -> pyresult bool) :
  call_api in_rate_limits HttpRaised = Ok JNone /\
  (forall sc text body,
      sc <> 200%Z ->
      call_api in_rate_limits (HttpResponse sc text body) = Ok JNone) /\
  (forall text,
      call_api in_rate_limits (HttpResponse 200 text None) = Ok (JStr text)) /\
  (forall text v,
      is_dict v = false ->
      call_api in_rate_limits (HttpResponse 200 text (Some v)) =
        Err AttributeError) /\
  (forall http r,
      call_api in_rate_limits http = Ok r ->
      code_check r = true ->
      exists text items,
        http = HttpResponse 200 text (Some (JDict items)) /\
        r = JDict items /\
        eq_zero (dict_get "code" JNone items) = true /\
        in_rate_limits (dict_get "code" JNone items) = Ok false).
Proof.
  split; [reflexivity|]. split; [|split; [reflexivity|split]].
  - intros sc text body Hsc. cbn.
    destruct (Z.eqb_spec sc 200); [contradiction | reflexivity].
  - intros text v Hv. destruct v; cbn in *; try reflexivity; discriminate.
  - intros http r. apply call_api_accepted.
Qed.

End ResponsesFacts.

(** ** The outlets *)

Module OutletFacts.
Import Helpers.
Import Responses.
Import ResponsesFacts.
Import Outlets.

Ltac unfold_outlet :=
  unfold left_by, obind, oret, lift, attr, assign, assign_energy,
    assign_detail in *.

Section WithParameters.

Variables ENERGY_WEEK ENERGY_MONTH ENERGY_YEAR : string.
Variables STATUS_ON STATUS_OFF : json.
Variable in_rate_limits : json -> pyresult bool.
Variable not_in_req_timeouts : json -> pyresult bool.
Variable server : nat -> string -> http_outcome.
Variable clock : nat -> float.

Ltac turn_cases :=
  repeat split; intros;
  repeat match goal with
    | H : _ \/ _ |- _ => destruct H
    | H : exists _, _ |- _ => destruct H
    | H : _ /\ _ |- _ => destruct H
    | H : HttpResponse _ _ _ = HttpResponse _ _ _ |- _ =>
        inversion H; subst; clear H
    end;
  cbn in *; try discriminate; try congruence; eauto 8.

Lemma call_api_ok_dict text items :
  in_rate_limits (dict_get "code" JNone items) = Ok false ->
  call_api in_rate_limits (HttpResponse 200 text (Some (JDict items))) =
  Ok (JDict items).
Proof. intros H. cbn. now rewrite H. Qed.

(** X10: the outlets of the 10A, 15A and outdoor classes record a new
    status only on confirmed success.  [turn] makes one request; it
    returns [True] exactly when the answer is HTTP 200 with a JSON object
    whose [code] is zero (and no rate-limit code), and then
    [device_status] is the requested status and nothing else changed; in
    every other case, an exception included, the outlet is unchanged. *)
Theorem turn_records_only_success (fam : family) (status : json) (e : Env) :
  let path := prefix fam ++ "devicestatus" in
  let out := turn in_rate_limits server fam status e in
  requested (snd out) = (requested e ++ [path])%list /\
  (fst out = Ok true <->
   exists text items,
     server (List.length (requested e)) path =
       HttpResponse 200 text (Some (JDict items)) /\
     eq_zero (dict_get "code" JNone items) = true /\
     in_rate_limits (dict_get "code" JNone items) = Ok false) /\
  (fst out = Ok true -> dev (snd out) = with_device_status status (dev e)) /\
  (fst out <> Ok true -> dev (snd out) = dev e).
Proof.
  cbv zeta. unfold turn, api_request; unfold_outlet. cbn [fst snd].
  destruct (call_api in_rate_limits
              (server (List.length (requested e)) (prefix fam ++ "devicestatus")))
    as [r|x] eqn:Ec; cbn.
  - destruct (code_check r) eqn:Ek; cbn.
    + split; [reflexivity|]. split; [|split; [reflexivity | congruence]].
      split; [intros _|reflexivity].
      destruct (call_api_accepted _ _ _ Ec Ek) as (text & items & H1 & _ & H3 & H4).
      eauto.
    + split; [reflexivity|]. split; [|split; [discriminate | reflexivity]].
      split; [discriminate|].
      intros (text & items & H1 & H3 & H4).
      rewrite H1, (call_api_ok_dict text items H4) in Ec.
      injection Ec as <-. cbn in Ek. congruence.
  - split; [reflexivity|]. split; [|split; [discriminate | reflexivity]].
    split; [discriminate|].
    intros (text & items & H1 & H3 & H4).
    rewrite H1, (call_api_ok_dict text items H4) in Ec. discriminate.
Qed.

(** X11: the 7A outlet does not look at the [code] of the answer.  [turn]
    returns [True] exactly when the request came back with HTTP 200 and
    either text that is not JSON or a JSON object whose [code] is no
    rate-limit code (zero or not), and then [device_status] is the
    requested status and nothing else changed.  It returns [False] exactly
    when the request raised or another status came back.  In the remaining
    cases it raises what [call_api] raises: [VeSyncRateLimitError] for a
    rate-limit code, [AttributeError] for JSON that is not an object.
    Whenever it does not return [True] the outlet is unchanged. *)
Theorem turn_7A_ignores_code (status : string) (e : Env) :
  let path := "/v1/wifi-switch-1.3/" ++ cid (dev e) ++ "/status/" ++ status in
  let http := server (List.length (requested e)) path in
  let out := turn_7A in_rate_limits server status e in
  (fst out = Ok true <->
   (exists text, http = HttpResponse 200 text None) \/
   (exists text items,
       http = HttpResponse 200 text (Some (JDict items)) /\
       in_rate_limits (dict_get "code" JNone items) = Ok false)) /\
  (fst out = Ok false <->
   http = HttpRaised \/
   (exists sc text body, http = HttpResponse sc text body /\ sc <> 200%Z)) /\
  (forall x, fst out = Err x <-> call_api in_rate_limits http = Err x) /\
  (forall text items,
      http = HttpResponse 200 text (Some (JDict items)) ->
      in_rate_limits (dict_get "code" JNone items) = Ok true ->
      fst out = Err VeSyncRateLimitError) /\
  (forall text v,
      http = HttpResponse 200 text (Some v) ->
      is_dict v = false ->
      fst out = Err AttributeError) /\
  (fst out = Ok true ->
   dev (snd out) = with_device_status (JStr status) (dev e)) /\
  (fst out <> Ok true -> dev (snd out) = dev e).
Proof.
  cbv zeta. unfold turn_7A, api_request; unfold_outlet. cbn [fst snd].
  destruct (server (List.length (requested e))
              ("/v1/wifi-switch-1.3/" ++ cid (dev e) ++ "/status/" ++ status))
    as [|sc text body]; cbn.
  - turn_cases.
  - destruct (Z.eqb_spec sc 200) as [->|Hsc]; cbn; [|turn_cases].
    destruct body as [v|]; cbn; [|turn_cases].
    destruct v as [| | | | | |items]; cbn.
    1-6: turn_cases.
    destruct (in_rate_limits (dict_get "code" JNone items)) as [[|]|x] eqn:El;
      cbn; turn_cases.
Qed.

Lemma subscript_ok_dict key value v :
  subscript key value = Ok v ->
  exists items, value = JDict items /\ dict_lookup key items = Some v.
Proof.
  destruct value; cbn; try discriminate.
  destruct (dict_lookup key items) eqn:E; [|discriminate].
  intros [= ->]. eauto.
Qed.

Lemma code_check_truthy r : code_check r = true -> truthy r = true.
Proof.
  intros H. destruct (code_check_true r H) as (items & c & -> & Hl & _).
  destruct items; [discriminate | reflexivity].
Qed.

(** What [get_response] returns and leaves, case by case. *)
Lemma get_response_cases (response : json) (e : Env) :
  (exists code c,
      get_response not_in_req_timeouts response e = (Ok (code, None), e) /\
      code_check response = true /\
      subscript "result" response = Ok code /\
      subscript "code" code = Ok c /\ eq_zero c = true) \/
  (exists err,
      get_response not_in_req_timeouts response e = (Ok (JNone, Some err), e) /\
      truthy response = true) \/
  (get_response not_in_req_timeouts response e =
     (Ok (JNone, Some (JInt (-1), JStr "offline")),
      mkEnv (with_connection_status (JStr "offline") (dev e))
        (requested e) (clock_reads e)) /\
   truthy response = false) \/
  (exists x, get_response not_in_req_timeouts response e = (Err x, e)).
Proof.
  unfold get_response; unfold_outlet.
  destruct (code_check response) eqn:Ek.
  - pose proof (code_check_truthy _ Ek) as Ht.
    destruct (subscript "result" response) as [code|x] eqn:E1; cbn; [|eauto 10].
    destruct (subscript "code" code) as [c|x] eqn:E2; cbn; [|eauto 10].
    destruct (eq_zero c) eqn:Ez; cbn.
    + left. exists code, c. auto.
    + right; left. eauto.
  - destruct (truthy response) eqn:Ht.
    + destruct (subscript "code" response) as [c|x]; cbn; [|eauto 10].
      destruct (subscript "msg" response) as [m|x]; cbn; [|eauto 10].
      destruct (not_in_req_timeouts c) as [b|x]; cbn; [|eauto 10].
      right; left. eauto.
    + right; right; left. auto.
Qed.

Lemma get_response_falsy (response : json) (e : Env) :
  truthy response = false ->
  get_response not_in_req_timeouts response e =
    (Ok (JNone, Some (JInt (-1), JStr "offline")),
     mkEnv (with_connection_status (JStr "offline") (dev e))
       (requested e) (clock_reads e)).
Proof.
  intros Ht. unfold get_response.
  destruct (code_check response) eqn:Ek;
    [apply code_check_truthy in Ek; congruence|].
  rewrite Ht. reflexivity.
Qed.

(** X12: [get_response] of the bypassV2 plugs.  When it returns, exactly
    one of result and error is [None]; there is no error only if
    [code_check] accepts the response and its [result] is an object whose
    own [code] is zero; the outlet is touched only for an empty response
    ([None], an empty dict or text), which marks it offline with the error
    (-1, 'offline'); an exception leaves it untouched. *)
Theorem get_response_outcomes (response : json) (e : Env) :
  match get_response not_in_req_timeouts response e with
  | (Ok (code, error), e') =>
      (error = None <-> code <> JNone) /\
      (error = None ->
         code_check response = true /\
         subscript "result" response = Ok code /\
         exists c, subscript "code" code = Ok c /\ eq_zero c = true) /\
      (truthy response = true -> e' = e) /\
      (truthy response = false ->
         error = Some (JInt (-1), JStr "offline") /\
         dev e' = with_connection_status (JStr "offline") (dev e))
  | (Err _, e') => e' = e
  end.
Proof.
  destruct (get_response_cases response e)
    as [(code & c & -> & Hk & H1 & H2 & Hz)
       | [(err & -> & Ht) | [[-> Ht] | (x & ->)]]].
  - destruct (subscript_ok_dict _ _ _ H2) as (items & -> & _).
    pose proof (code_check_truthy _ Hk) as Ht.
    repeat split; eauto; try discriminate; try congruence.
  - repeat split; try discriminate; try congruence;
      try (intros H; now destruct H).
  - repeat split; try discriminate; try congruence;
      try (intros H; now destruct H).
  - reflexivity.
Qed.

(** X13: the bypassV2 plugs record a new status only on success.  [turn]
    returns [True] only when [code_check] accepts the response, and then
    [device_status] is the requested status and nothing else changed;
    whenever it does not return [True], [device_status] is unchanged; on an
    empty response it returns [False] and the outlet is marked offline. *)
Theorem turn_v2_records_only_success (response status : json) (e : Env) :
  let out := turn_v2 not_in_req_timeouts response status e in
  (fst out = Ok true ->
     code_check response = true /\
     dev (snd out) = with_device_status status (dev e)) /\
  (fst out <> Ok true ->
     device_status (dev (snd out)) = device_status (dev e)) /\
  (truthy response = false ->
     fst out = Ok false /\
     connection_status (dev (snd out)) = JStr "offline").
Proof.
  cbv zeta. split; [|split].
  - unfold turn_v2, obind.
    destruct (get_response_cases response e)
      as [(code & c & -> & Hk & _) | [(err & -> & _) | [[-> _] | (x & ->)]]];
      unfold_outlet; cbn; try discriminate. auto.
  - unfold turn_v2, obind.
    destruct (get_response_cases response e)
      as [(code & c & -> & Hk & _) | [(err & -> & _) | [[-> _] | (x & ->)]]];
      unfold_outlet; cbn; try reflexivity. congruence.
  - intros Ht. unfold turn_v2, obind.
    rewrite (get_response_falsy response e Ht). cbn. auto.
Qed.

(** X14: the BSDGO1 plug never marks itself online.  Its [get_details]
    and its [turn] leave [connection_status] as it was or set it to
    'offline', whatever the response; a plug once marked offline stays so
    through these calls. *)
Theorem bsdgo1_never_marks_online (response status : json) (e : Env) :
  let cs := connection_status (dev e) in
  let after_details :=
    connection_status (dev (left_by
      (get_details_BSDGO1 STATUS_ON STATUS_OFF not_in_req_timeouts response) e)) in
  let after_turn :=
    connection_status (dev (left_by
      (turn_v2 not_in_req_timeouts response status) e)) in
  (after_details = cs \/ after_details = JStr "offline") /\
  (after_turn = cs \/ after_turn = JStr "offline").
Proof.
  cbv zeta. unfold left_by, get_details_BSDGO1, turn_v2, obind.
  destruct (get_response_cases response e)
    as [(code & c & -> & Hk & H1 & H2 & Hz)
       | [(err & -> & _) | [[-> _] | (x & ->)]]];
    unfold_outlet; cbn; auto.
  destruct (subscript_ok_dict _ _ _ H2) as (items & -> & _). cbn.
  destruct (eq_one (dict_get "powerSwitch_1" JNone items)); cbn; auto.
Qed.

(** X15: [get_details] of the WYSMTOD16A plug.  When it returns, either
    the plug is marked online, [code_check] accepted the response and
    [device_status] is one of the two status constants, or the plug is
    marked offline (also for an error of a plug that did answer) and its
    status and details are unchanged.  An exception leaves the outlet
    untouched. *)
Theorem wysmtod16a_details_outcomes (response : json) (e : Env) :
  match get_details_WYSMTOD16A STATUS_ON STATUS_OFF not_in_req_timeouts
          response e with
  | (Ok _, e') =>
      (connection_status (dev e') = JStr "online" /\
       code_check response = true /\
       (device_status (dev e') = STATUS_ON \/
        device_status (dev e') = STATUS_OFF)) \/
      (connection_status (dev e') = JStr "offline" /\
       device_status (dev e') = device_status (dev e) /\
       details (dev e') = details (dev e))
  | (Err _, e') => e' = e
  end.
Proof.
  unfold get_details_WYSMTOD16A, get_properties, obind.
  destruct (get_response_cases response e)
    as [(code & c & -> & Hk & H1 & H2 & Hz)
       | [(err & -> & _) | [[-> _] | (x & ->)]]];
    unfold_outlet; cbn; auto.
  destruct (subscript "result" code) as [properties|x]; cbn; [|reflexivity].
  destruct (truthy properties) eqn:Ht; cbn; [|auto].
  destruct properties; cbn; try reflexivity.
  destruct (truthy (dict_get "powerSwitch_1" (JBool false) items));
    cbn; auto 6.
Qed.

(** *** Energy history *)

Lemma get_energy_accepted (fam : family) (period : string) (e : Env) text items :
  server (List.length (requested e)) (prefix fam ++ "energy" ++ period) =
    HttpResponse 200 text (Some (JDict items)) ->
  eq_zero (dict_get "code" JNone items) = true ->
  in_rate_limits (dict_get "code" JNone items) = Ok false ->
  get_energy in_rate_limits server fam period e =
    (Ok (JDict (build_energy_dict items)),
     mkEnv (with_energy
              (dict_set period (JDict (build_energy_dict items)) (energy (dev e)))
              (dev e))
       (requested e ++ [prefix fam ++ "energy" ++ period])
       (clock_reads e)).
Proof.
  intros Hs Hz Hl. unfold get_energy, api_request; unfold_outlet.
  rewrite Hs, (call_api_ok_dict text items Hl).
  cbn [code_check]. rewrite Hz. cbn.
  now rewrite dict_lookup_set_same.
Qed.

Lemma get_energy_rejected (fam : family) (period : string) (e : Env) r :
  call_api in_rate_limits
    (server (List.length (requested e)) (prefix fam ++ "energy" ++ period)) =
    Ok r ->
  code_check r = false ->
  get_energy in_rate_limits server fam period e =
    (Ok JNone,
     mkEnv (with_energy (dict_set period JNone (energy (dev e))) (dev e))
       (requested e ++ [prefix fam ++ "energy" ++ period])
       (clock_reads e)).
Proof.
  intros Hc Hk. unfold get_energy, api_request; unfold_outlet.
  rewrite Hc, Hk. cbn. now rewrite dict_lookup_set_same.
Qed.

Lemma allowed_update (ge : string -> OM json) (bypass : bool) (e : Env) :
  bypass = true \/ update_energy_ts (dev e) = None ->
  (if bypass then oret true else update_time_check clock) e = (Ok true, e).
Proof.
  intros [-> | Hts]; [reflexivity|].
  destruct bypass; [reflexivity|].
  unfold update_time_check; unfold_outlet. now rewrite Hts.
Qed.

Lemma lookup_after_two_sets k1 k2 v items :
  dict_lookup k1 (dict_set k2 v (dict_set k1 v items)) = Some v.
Proof.
  destruct (String.eqb_spec k1 k2) as [->|Hn].
  - apply dict_lookup_set_same.
  - rewrite dict_lookup_set_other by exact Hn. apply dict_lookup_set_same.
Qed.

(** X16: a failed weekly fetch leaves the weekly total unusable.  When
    [update_energy] runs (forced, or never run before) on an outlet of the
    10A, 15A or outdoor class with energy history, and the answer to the
    weekly request is rejected by [code_check], then no other request is
    made, [energy] holds [None] for the week and an empty dict for the
    month and the year, the monthly and yearly totals read 0, and reading
    the weekly total raises [AttributeError]. *)
Theorem update_energy_weekly_failure
    (fam : family) (bypass : bool) (e : Env) (r : json) :
  energy_history (dev e) = true ->
  bypass = true \/ update_energy_ts (dev e) = None ->
  call_api in_rate_limits
    (server (List.length (requested e))
       (prefix fam ++ "energy" ++ ENERGY_WEEK)) = Ok r ->
  code_check r = false ->
  ENERGY_WEEK <> ENERGY_MONTH ->
  ENERGY_WEEK <> ENERGY_YEAR ->
  let out :=
    update_energy ENERGY_WEEK ENERGY_MONTH ENERGY_YEAR clock
      (get_energy in_rate_limits server fam) bypass e in
  let e' := snd out in
  fst out = Ok tt /\
  requested e' =
    (requested e ++ [(prefix fam ++ "energy" ++ ENERGY_WEEK)%string])%list /\
  dict_lookup ENERGY_WEEK (energy (dev e')) = Some JNone /\
  dict_lookup ENERGY_MONTH (energy (dev e')) = Some (JDict []) /\
  dict_lookup ENERGY_YEAR (energy (dev e')) = Some (JDict []) /\
  fst (weekly_energy_total ENERGY_WEEK e') = Err AttributeError /\
  fst (monthly_energy_total ENERGY_MONTH e') = Ok (JInt 0) /\
  fst (yearly_energy_total ENERGY_YEAR e') = Ok (JInt 0).
Proof.
  intros Hsup Hgo Hc Hk Hwm Hwy. cbv zeta.
  assert (Hrun : exists ts n,
    update_energy ENERGY_WEEK ENERGY_MONTH ENERGY_YEAR clock
      (get_energy in_rate_limits server fam) bypass e =
    (Ok tt,
     mkEnv (with_update_energy_ts ts
              (with_energy
                 (dict_set ENERGY_YEAR (JDict [])
                    (dict_set ENERGY_MONTH (JDict [])
                       (dict_set ENERGY_WEEK JNone (energy (dev e)))))
                 (dev e)))
       (requested e ++ [(prefix fam ++ "energy" ++ ENERGY_WEEK)%string])
       n)).
  { unfold update_energy, obind.
    rewrite (allowed_update (fun _ => oret JNone) bypass e Hgo).
    unfold get_weekly_energy, get_period_energy, time_time, obind, attr, assign.
    cbn -[get_energy]. rewrite Hsup.
    erewrite get_energy_rejected; [|exact Hc|exact Hk].
    unfold assign_energy, assign.
    destruct bypass; do 2 eexists;
      unfold oret, with_energy, with_update_energy_ts; cbn; reflexivity. }
  destruct Hrun as (ts & n & ->). cbn [fst snd dev requested energy].
  unfold with_update_energy_ts, with_energy; cbn [energy].
  assert (Hw : dict_lookup ENERGY_WEEK
                 (dict_set ENERGY_YEAR (JDict [])
                    (dict_set ENERGY_MONTH (JDict [])
                       (dict_set ENERGY_WEEK JNone (energy (dev e))))) =
               Some JNone).
  { rewrite !dict_lookup_set_other by congruence. apply dict_lookup_set_same. }
  assert (Hm : dict_lookup ENERGY_MONTH
                 (dict_set ENERGY_YEAR (JDict [])
                    (dict_set ENERGY_MONTH (JDict [])
                       (dict_set ENERGY_WEEK JNone (energy (dev e))))) =
               Some (JDict [])) by apply lookup_after_two_sets.
  assert (Hy : dict_lookup ENERGY_YEAR
                 (dict_set ENERGY_YEAR (JDict [])
                    (dict_set ENERGY_MONTH (JDict [])
                       (dict_set ENERGY_WEEK JNone (energy (dev e))))) =
               Some (JDict [])) by apply dict_lookup_set_same.
  unfold weekly_energy_total, monthly_energy_total, yearly_energy_total,
    period_energy_total, dict_get; unfold_outlet.
  cbn [fst snd dev energy]. rewrite Hw, Hm, Hy. cbn.
  repeat split; reflexivity.
Qed.

(** X17: when [update_energy] makes no request.  Called without
    [bypass] before the update interval has passed, it changes
    nothing and requests nothing (it only reads the clock once).  On an
    outlet without energy history it requests nothing either, whatever the
    subclass: it stores an empty dict for the month and the year, and the
    monthly and yearly totals read 0. *)
Theorem update_energy_without_requests
    (ge : string -> OM json) (bypass : bool) (e : Env) :
  (forall t,
      bypass = false ->
      update_energy_ts (dev e) = Some t ->
      PrimFloat.ltb (_energy_update_interval (dev e))
        (PrimFloat.sub (clock (clock_reads e)) t) = false ->
      update_energy ENERGY_WEEK ENERGY_MONTH ENERGY_YEAR clock ge bypass e =
        (Ok tt, mkEnv (dev e) (requested e) (S (clock_reads e)))) /\
  (energy_history (dev e) = false ->
   bypass = true \/ update_energy_ts (dev e) = None ->
   let out :=
     update_energy ENERGY_WEEK ENERGY_MONTH ENERGY_YEAR clock ge bypass e in
   fst out = Ok tt /\
   requested (snd out) = requested e /\
   energy (dev (snd out)) =
     dict_set ENERGY_YEAR (JDict [])
       (dict_set ENERGY_MONTH (JDict []) (energy (dev e))) /\
   fst (monthly_energy_total ENERGY_MONTH (snd out)) = Ok (JInt 0) /\
   fst (yearly_energy_total ENERGY_YEAR (snd out)) = Ok (JInt 0)).
Proof.
  split.
  - intros t -> Hts Hlt.
    unfold update_energy, update_time_check; unfold_outlet.
    rewrite Hts. unfold time_time. cbn. rewrite Hlt. reflexivity.
  - intros Hsup Hgo. cbv zeta.
    assert (Hrun : exists ts n,
      update_energy ENERGY_WEEK ENERGY_MONTH ENERGY_YEAR clock ge bypass e =
      (Ok tt,
       mkEnv (with_update_energy_ts ts
                (with_energy
                   (dict_set ENERGY_YEAR (JDict [])
                      (dict_set ENERGY_MONTH (JDict []) (energy (dev e))))
                   (dev e)))
         (requested e) n)).
    { unfold update_energy, obind.
      rewrite (allowed_update ge bypass e Hgo).
      unfold get_weekly_energy, get_period_energy, time_time, obind, attr,
        assign, assign_energy.
      cbn. rewrite Hsup.
      destruct bypass; do 2 eexists;
        unfold oret, assign, with_energy, with_update_energy_ts; cbn;
        reflexivity. }
    destruct Hrun as (ts & n & ->). cbn [fst snd dev requested energy].
    unfold with_update_energy_ts, with_energy; cbn [energy].
    unfold monthly_energy_total, yearly_energy_total, period_energy_total,
      dict_get; unfold_outlet.
    cbn [fst snd dev energy].
    rewrite dict_lookup_set_same.
    replace (dict_lookup ENERGY_MONTH
               (dict_set ENERGY_YEAR (JDict [])
                  (dict_set ENERGY_MONTH (JDict []) (energy (dev e)))))
      with (Some (JDict [])).
    + cbn. repeat split; reflexivity.
    + symmetry.
      destruct (String.eqb_spec ENERGY_MONTH ENERGY_YEAR) as [->|Hn].
      * apply dict_lookup_set_same.
      * rewrite dict_lookup_set_other by exact Hn. apply dict_lookup_set_same.
Qed.

(** X18: from the answers of the API to the totals.  When [update_energy]
    runs on an outlet of the 10A, 15A or outdoor class with energy history
    and the three answers (week, month, year, in this order) are accepted,
    exactly these three requests are made and each total reads the
    [totalEnergy] of its answer, or 0 when the answer has none. *)
Theorem update_energy_totals
    (fam : family) (bypass : bool) (e : Env)
    (tw tm ty : string) (rw rm ry : list (string * json)) :
  let k := List.length (requested e) in
  let pw := prefix fam ++ "energy" ++ ENERGY_WEEK in
  let pm := prefix fam ++ "energy" ++ ENERGY_MONTH in
  let py := prefix fam ++ "energy" ++ ENERGY_YEAR in
  energy_history (dev e) = true ->
  bypass = true \/ update_energy_ts (dev e) = None ->
  server k pw = HttpResponse 200 tw (Some (JDict rw)) ->
  server (S k) pm = HttpResponse 200 tm (Some (JDict rm)) ->
  server (S (S k)) py = HttpResponse 200 ty (Some (JDict ry)) ->
  Forall (fun r => eq_zero (dict_get "code" JNone r) = true /\
                   in_rate_limits (dict_get "code" JNone r) = Ok false)
    [rw; rm; ry] ->
  ENERGY_WEEK <> ENERGY_MONTH ->
  ENERGY_WEEK <> ENERGY_YEAR ->
  ENERGY_MONTH <> ENERGY_YEAR ->
  let out :=
    update_energy ENERGY_WEEK ENERGY_MONTH ENERGY_YEAR clock
      (get_energy in_rate_limits server fam) bypass e in
  fst out = Ok tt /\
  requested (snd out) = (requested e ++ [pw; pm; py])%list /\
  fst (weekly_energy_total ENERGY_WEEK (snd out)) =
    Ok (dict_get "totalEnergy" (JInt 0) rw) /\
  fst (monthly_energy_total ENERGY_MONTH (snd out)) =
    Ok (dict_get "totalEnergy" (JInt 0) rm) /\
  fst (yearly_energy_total ENERGY_YEAR (snd out)) =
    Ok (dict_get "totalEnergy" (JInt 0) ry).
Proof.
  cbv zeta. intros Hsup Hgo Hw Hm Hy Hall Hwm Hwy Hmy.
  inversion Hall as [|? ? [Hzw Hlw] Hall1]; subst.
  inversion Hall1 as [|? ? [Hzm Hlm] Hall2]; subst.
  inversion Hall2 as [|? ? [Hzy Hly] _]; subst.
  assert (Hrun : exists ts n,
    update_energy ENERGY_WEEK ENERGY_MONTH ENERGY_YEAR clock
      (get_energy in_rate_limits server fam) bypass e =
    (Ok tt,
     mkEnv (with_update_energy_ts ts
              (with_energy
                 (dict_set ENERGY_YEAR (JDict (build_energy_dict ry))
                    (dict_set ENERGY_MONTH (JDict (build_energy_dict rm))
                       (dict_set ENERGY_WEEK (JDict (build_energy_dict rw))
                          (energy (dev e)))))
                 (dev e)))
       ((requested e ++ [(prefix fam ++ "energy" ++ ENERGY_WEEK)%string])
          ++ [(prefix fam ++ "energy" ++ ENERGY_MONTH)%string]
          ++ [(prefix fam ++ "energy" ++ ENERGY_YEAR)%string])%list
       n)).
  { unfold update_energy, obind.
    rewrite (allowed_update (fun _ => oret JNone) bypass e Hgo).
    unfold get_weekly_energy, get_monthly_energy, get_yearly_energy,
      get_period_energy, time_time, obind, attr, assign.
    cbn -[get_energy]. rewrite Hsup.
    erewrite get_energy_accepted; [|exact Hw|exact Hzw|exact Hlw].
    cbn -[get_energy]. rewrite Hsup.
    erewrite get_energy_accepted;
      [|cbn [requested]; rewrite length_app, Nat.add_1_r; exact Hm
       |exact Hzm|exact Hlm].
    cbn -[get_energy]. rewrite Hsup.
    erewrite get_energy_accepted;
      [|cbn [requested]; rewrite !length_app; cbn [List.length];
        rewrite !Nat.add_1_r; exact Hy
       |exact Hzy|exact Hly].
    destruct bypass; do 2 eexists;
      unfold oret, assign, with_energy, with_update_energy_ts; cbn;
      rewrite <- ?app_assoc; reflexivity. }
  destruct Hrun as (ts & n & ->). cbn [fst snd dev requested energy].
  unfold with_update_energy_ts, with_energy; cbn [energy].
  unfold weekly_energy_total, monthly_energy_total, yearly_energy_total,
    period_energy_total; unfold_outlet.
  cbn [fst snd dev energy]. unfold dict_get at 1 3 5.
  rewrite dict_lookup_set_same.
  rewrite (dict_lookup_set_other ENERGY_YEAR ENERGY_MONTH) by exact Hmy.
  rewrite dict_lookup_set_same.
  rewrite !(dict_lookup_set_other _ ENERGY_WEEK) by congruence.
  rewrite dict_lookup_set_same.
  cbn. rewrite <- !app_assoc. repeat split; reflexivity.
Qed.

(** *** The sub-devices of the outdoor plug *)

(** [len] and indexing count characters: the two bytes of U+00E9 are one
    character, so a string of that character and 'x' has length 2 and its
    last character is 'x'. *)
Example string_length_counts_characters :
  let e_acute :=
    String (Ascii.ascii_of_nat 195) (String (Ascii.ascii_of_nat 169) "") in
  py_len (JStr (e_acute ++ "x")) = Ok 2%Z /\
  py_index (JStr (e_acute ++ "x")) 0 = Ok (JStr e_acute) /\
  py_index (JStr (e_acute ++ "x")) (-1) = Ok (JStr "x") /\
  py_index (JStr (e_acute ++ "x")) 2 = Err IndexError.
Proof. cbv zeta. repeat split. Qed.

Lemma get_details_outdoor_accepted (e : Env) text items :
  server (List.length (requested e)) (prefix OutdoorPlug ++ "devicedetail") =
    HttpResponse 200 text (Some (JDict items)) ->
  eq_zero (dict_get "code" JNone items) = true ->
  in_rate_limits (dict_get "code" JNone items) = Ok false ->
  get_details_outdoor in_rate_limits server e =
    (let e1 :=
       mkEnv (with_connection_status (dict_get "connectionStatus" JNone items)
                (with_details (build_details_dict items) (dev e)))
         (requested e ++ [prefix OutdoorPlug ++ "devicedetail"])
         (clock_reads e) in
     let sub_device_list := dict_get "subDevices" JNone items in
     if truthy sub_device_list then
       match py_len sub_device_list with
       | Err x => (Err x, e1)
       | Ok n =>
           if (sub_device_no (dev e) <=? n)%Z then
             match py_index sub_device_list (sub_device_no (dev e) + -1) with
             | Err x => (Err x, e1)
             | Ok sub =>
                 match method_get "subDeviceStatus" JNone sub with
                 | Err x => (Err x, e1)
                 | Ok st =>
                     (Ok tt,
                      mkEnv (with_device_status st (dev e1)) (requested e1)
                        (clock_reads e1))
                 end
             end
           else (Ok tt, e1)
       end
     else (Ok tt, e1)).
Proof.
  intros Hs Hz Hl. unfold get_details_outdoor, api_request; unfold_outlet.
  rewrite Hs, (call_api_ok_dict text items Hl).
  cbn [code_check]. rewrite Hz. cbn.
  destruct (truthy (dict_get "subDevices" JNone items)); [|reflexivity].
  destruct (py_len (dict_get "subDevices" JNone items)) as [n|x]; cbn;
    [|reflexivity].
  destruct (sub_device_no (dev e) <=? n)%Z; [|reflexivity].
  destruct (py_index (dict_get "subDevices" JNone items)
              (sub_device_no (dev e) + -1)) as [sub|x]; cbn; [|reflexivity].
  destruct (method_get "subDeviceStatus" JNone sub); reflexivity.
Qed.

Lemma py_index_wraps (l : list json) (i : Z) :
  let n := Z.of_nat (List.length l) in
  (- n <= i < n)%Z ->
  py_index (JList l) i =
  match nth_error l (Z.to_nat (i mod n)) with
  | Some x => Ok x
  | None => Err IndexError
  end.
Proof.
  cbv zeta. intros Hi. unfold py_index.
  destruct (Z.ltb_spec i 0).
  - replace ((0 <=? i + Z.of_nat (List.length l))
             && (i + Z.of_nat (List.length l) <? Z.of_nat (List.length l)))%Z
      with true by (symmetry; apply andb_true_iff; split;
                    [apply Z.leb_le | apply Z.ltb_lt]; lia).
    replace (i mod Z.of_nat (List.length l))%Z
      with (i + Z.of_nat (List.length l))%Z; [reflexivity|].
    apply Z.mod_unique with (q := (-1)%Z); lia.
  - replace ((0 <=? i) && (i <? Z.of_nat (List.length l)))%Z
      with true by (symmetry; apply andb_true_iff; split;
                    [apply Z.leb_le | apply Z.ltb_lt]; lia).
    rewrite Z.mod_small by lia. reflexivity.
Qed.

(** X19: which sub-device the outdoor plug reads.  After an accepted
    answer whose [subDevices] is a list of [n] entries, [get_details] takes
    the status of entry number [sub_device_no], counted from 1; a
    [sub_device_no] of 0 or less is not refused but counts from the end of
    the list (0 is the last entry).  The details, the connection status and
    [active_time] come from the answer. *)
Theorem outdoor_details_sub_device
    (e : Env) (text : string) (items : list (string * json))
    (l : list json) (entry : list (string * json)) :
  let n := Z.of_nat (List.length l) in
  let dev_no := sub_device_no (dev e) in
  server (List.length (requested e)) (prefix OutdoorPlug ++ "devicedetail") =
    HttpResponse 200 text (Some (JDict items)) ->
  eq_zero (dict_get "code" JNone items) = true ->
  in_rate_limits (dict_get "code" JNone items) = Ok false ->
  dict_lookup "subDevices" items = Some (JList l) ->
  (- n < dev_no <= n)%Z ->
  nth_error l (Z.to_nat ((dev_no - 1) mod n)) = Some (JDict entry) ->
  let out := get_details_outdoor in_rate_limits server e in
  fst out = Ok tt /\
  device_status (dev (snd out)) = dict_get "subDeviceStatus" JNone entry /\
  connection_status (dev (snd out)) =
    dict_get "connectionStatus" JNone items /\
  details (dev (snd out)) = build_details_dict items /\
  fst (active_time (snd out)) = Ok (dict_get "activeTime" (JInt 0) items).
Proof.
  cbv zeta. intros Hs Hz Hl Hsub Hrange Hnth.
  assert (Hg : dict_get "subDevices" JNone items = JList l)
    by (unfold dict_get; now rewrite Hsub).
  assert (Hne : l <> []) by (intros ->; cbn in Hrange; lia).
  assert (Hrun :
    get_details_outdoor in_rate_limits server e =
    (Ok tt,
     mkEnv (with_device_status (dict_get "subDeviceStatus" JNone entry)
              (with_connection_status (dict_get "connectionStatus" JNone items)
                 (with_details (build_details_dict items) (dev e))))
       (requested e ++ [prefix OutdoorPlug ++ "devicedetail"])
       (clock_reads e))).
  { rewrite (get_details_outdoor_accepted e text items Hs Hz Hl). cbv zeta.
    rewrite Hg.
    replace (truthy (JList l)) with true
      by (destruct l; [congruence | reflexivity]).
    cbn [py_len].
    replace (sub_device_no (dev e) <=? Z.of_nat (List.length l))%Z with true
      by (symmetry; apply Z.leb_le; lia).
    rewrite py_index_wraps by lia.
    replace (sub_device_no (dev e) + -1)%Z with (sub_device_no (dev e) - 1)%Z
      by lia.
    rewrite Hnth. reflexivity. }
  rewrite Hrun. cbn. repeat split.
Qed.

(** X20: a sub-device number outside the list.  After an accepted answer
    whose [subDevices] is a non-empty list of [n] entries, a
    [sub_device_no] above [n] makes [get_details] return without touching
    [device_status], and one of [-n] or below makes it raise [IndexError];
    in both cases the details and the connection status have already been
    replaced by those of the answer. *)
Theorem outdoor_details_out_of_range
    (e : Env) (text : string) (items : list (string * json)) (l : list json) :
  let n := Z.of_nat (List.length l) in
  let dev_no := sub_device_no (dev e) in
  server (List.length (requested e)) (prefix OutdoorPlug ++ "devicedetail") =
    HttpResponse 200 text (Some (JDict items)) ->
  eq_zero (dict_get "code" JNone items) = true ->
  in_rate_limits (dict_get "code" JNone items) = Ok false ->
  dict_lookup "subDevices" items = Some (JList l) ->
  l <> [] ->
  let out := get_details_outdoor in_rate_limits server e in
  ((n < dev_no)%Z -> fst out = Ok tt) /\
  ((dev_no <= - n)%Z -> fst out = Err IndexError) /\
  ((n < dev_no)%Z \/ (dev_no <= - n)%Z ->
   device_status (dev (snd out)) = device_status (dev e) /\
   details (dev (snd out)) = build_details_dict items /\
   connection_status (dev (snd out)) =
     dict_get "connectionStatus" JNone items).
Proof.
  cbv zeta. intros Hs Hz Hl Hsub Hne.
  assert (Hg : dict_get "subDevices" JNone items = JList l)
    by (unfold dict_get; now rewrite Hsub).
  assert (Hlen : (0 < Z.of_nat (List.length l))%Z)
    by (destruct l; [congruence | cbn; lia]).
  set (e1 := mkEnv
               (with_connection_status (dict_get "connectionStatus" JNone items)
                  (with_details (build_details_dict items) (dev e)))
               (requested e ++ [prefix OutdoorPlug ++ "devicedetail"])
               (clock_reads e)).
  assert (Hhigh : (Z.of_nat (List.length l) < sub_device_no (dev e))%Z ->
                  get_details_outdoor in_rate_limits server e = (Ok tt, e1)).
  { intros H.
    rewrite (get_details_outdoor_accepted e text items Hs Hz Hl). cbv zeta.
    rewrite Hg.
    replace (truthy (JList l)) with true
      by (destruct l; [congruence | reflexivity]).
    cbn [py_len].
    replace (sub_device_no (dev e) <=? Z.of_nat (List.length l))%Z with false
      by (symmetry; apply Z.leb_gt; lia).
    reflexivity. }
  assert (Hlow : (sub_device_no (dev e) <= - Z.of_nat (List.length l))%Z ->
                 get_details_outdoor in_rate_limits server e =
                 (Err IndexError, e1)).
  { intros H.
    rewrite (get_details_outdoor_accepted e text items Hs Hz Hl). cbv zeta.
    rewrite Hg.
    replace (truthy (JList l)) with true
      by (destruct l; [congruence | reflexivity]).
    cbn [py_len].
    replace (sub_device_no (dev e) <=? Z.of_nat (List.length l))%Z with true
      by (symmetry; apply Z.leb_le; lia).
    unfold py_index.
    destruct (Z.ltb_spec (sub_device_no (dev e) + -1) 0); [|lia].
    replace (0 <=? sub_device_no (dev e) + -1 + Z.of_nat (List.length l))%Z
      with false by (symmetry; apply Z.leb_gt; lia).
    reflexivity. }
  split; [|split].
  - intros H. now rewrite (Hhigh H).
  - intros H. now rewrite (Hlow H).
  - intros [H|H]; [rewrite (Hhigh H) | rewrite (Hlow H)]; cbn; auto.
Qed.

End WithParameters.

(** *** Instances *)

Lemma update_energy_weekly_failure_witness :
  let e0 := mkEnv (mkOutlet "cid" (JStr "on") (JStr "online") [] [] [] None
                     PrimFloat.zero 0 true) [] 0 in
  let out :=
    update_energy "week" "month" "year" (fun _ => PrimFloat.zero)
      (get_energy (fun _ => Ok false) (fun _ _ => HttpRaised) Outlet10A)
      true e0 in
  let e' := snd out in
  fst out = Ok tt /\
  requested e' =
    (requested e0 ++ [(prefix Outlet10A ++ "energy" ++ "week")%string])%list /\
  dict_lookup "week" (energy (dev e')) = Some JNone /\
  dict_lookup "month" (energy (dev e')) = Some (JDict []) /\
  dict_lookup "year" (energy (dev e')) = Some (JDict []) /\
  fst (weekly_energy_total "week" e') = Err AttributeError /\
  fst (monthly_energy_total "month" e') = Ok (JInt 0) /\
  fst (yearly_energy_total "year" e') = Ok (JInt 0).
Proof.
  apply (update_energy_weekly_failure "week" "month" "year"
           (fun _ => Ok false) (fun _ _ => HttpRaised) (fun _ => PrimFloat.zero)
           Outlet10A true
           (mkEnv (mkOutlet "cid" (JStr "on") (JStr "online") [] [] [] None
                     PrimFloat.zero 0 true) [] 0)
           JNone).
  - reflexivity.
  - left; reflexivity.
  - reflexivity.
  - reflexivity.
  - discriminate.
  - discriminate.
Defined.

Lemma update_energy_totals_witness :
  let answers := fun (k : nat) (_ : string) =>
    HttpResponse 200 "{}"
      (Some (JDict [("code", JInt 0); ("totalEnergy", JInt (Z.of_nat k))])) in
  let e0 := mkEnv (mkOutlet "cid" (JStr "on") (JStr "online") [] [] [] None
                     PrimFloat.zero 0 true) [] 0 in
  let out :=
    update_energy "week" "month" "year" (fun _ => PrimFloat.zero)
      (get_energy (fun _ => Ok false) answers Outlet15A) false e0 in
  fst out = Ok tt /\
  requested (snd out) =
    (requested e0 ++ [(prefix Outlet15A ++ "energy" ++ "week")%string;
                      (prefix Outlet15A ++ "energy" ++ "month")%string;
                      (prefix Outlet15A ++ "energy" ++ "year")%string])%list /\
  fst (weekly_energy_total "week" (snd out)) =
    Ok (dict_get "totalEnergy" (JInt 0)
          [("code", JInt 0); ("totalEnergy", JInt 0)]) /\
  fst (monthly_energy_total "month" (snd out)) =
    Ok (dict_get "totalEnergy" (JInt 0)
          [("code", JInt 0); ("totalEnergy", JInt 1)]) /\
  fst (yearly_energy_total "year" (snd out)) =
    Ok (dict_get "totalEnergy" (JInt 0)
          [("code", JInt 0); ("totalEnergy", JInt 2)]).
Proof.
  apply (update_energy_totals "week" "month" "year" (fun _ => Ok false)
           (fun (k : nat) (_ : string) =>
              HttpResponse 200 "{}"
                (Some (JDict [("code", JInt 0);
                              ("totalEnergy", JInt (Z.of_nat k))])))
           (fun _ => PrimFloat.zero) Outlet15A false
           (mkEnv (mkOutlet "cid" (JStr "on") (JStr "online") [] [] [] None
                     PrimFloat.zero 0 true) [] 0)
           "{}" "{}" "{}").
  - reflexivity.
  - right; reflexivity.
  - reflexivity.
  - reflexivity.
  - reflexivity.
  - repeat constructor.
  - discriminate.
  - discriminate.
  - discriminate.
Defined.

Lemma outdoor_details_sub_device_witness :
  let answer :=
    [("code", JInt 0);
     ("subDevices",
      JList [JDict [("subDeviceStatus", JStr "on")];
             JDict [("subDeviceStatus", JStr "off")]])] in
  let e0 := mkEnv (mkOutlet "cid" JNone JNone [] [] [] None
                     PrimFloat.zero 0 true) [] 0 in
  let out :=
    get_details_outdoor (fun _ => Ok false)
      (fun _ _ => HttpResponse 200 "{}" (Some (JDict answer))) e0 in
  fst out = Ok tt /\
  device_status (dev (snd out)) =
    dict_get "subDeviceStatus" JNone [("subDeviceStatus", JStr "off")] /\
  connection_status (dev (snd out)) =
    dict_get "connectionStatus" JNone answer /\
  details (dev (snd out)) = build_details_dict answer /\
  fst (active_time (snd out)) = Ok (dict_get "activeTime" (JInt 0) answer).
Proof.
  apply (outdoor_details_sub_device (fun _ => Ok false)
           (fun _ _ => HttpResponse 200 "{}"
              (Some (JDict
                 [("code", JInt 0);
                  ("subDevices",
                   JList [JDict [("subDeviceStatus", JStr "on")];
                          JDict [("subDeviceStatus", JStr "off")]])])))
           (mkEnv (mkOutlet "cid" JNone JNone [] [] [] None
                     PrimFloat.zero 0 true) [] 0)
           "{}" _
           [JDict [("subDeviceStatus", JStr "on")];
            JDict [("subDeviceStatus", JStr "off")]]).
  - reflexivity.
  - reflexivity.
  - reflexivity.
  - reflexivity.
  - cbn; lia.
  - reflexivity.
Defined.

Lemma outdoor_details_out_of_range_witness :
  let answer :=
    [("code", JInt 0);
     ("subDevices",
      JList [JDict [("subDeviceStatus", JStr "on")];
             JDict [("subDeviceStatus", JStr "off")]])] in
  let e0 := mkEnv (mkOutlet "cid" (JStr "on") JNone [] [] [] None
                     PrimFloat.zero 3 true) [] 0 in
  let out :=
    get_details_outdoor (fun _ => Ok false)
      (fun _ _ => HttpResponse 200 "{}" (Some (JDict answer))) e0 in
  fst out = Ok tt /\ device_status (dev (snd out)) = JStr "on".
Proof.
  cbv zeta.
  pose proof (outdoor_details_out_of_range (fun _ => Ok false)
           (fun _ _ => HttpResponse 200 "{}"
              (Some (JDict
                 [("code", JInt 0);
                  ("subDevices",
                   JList [JDict [("subDeviceStatus", JStr "on")];
                          JDict [("subDeviceStatus", JStr "off")]])])))
           (mkEnv (mkOutlet "cid" (JStr "on") JNone [] [] [] None
                     PrimFloat.zero 3 true) [] 0)
           "{}" _
           [JDict [("subDeviceStatus", JStr "on")];
            JDict [("subDeviceStatus", JStr "off")]]
           eq_refl eq_refl eq_refl eq_refl
           ltac:(discriminate)) as H.
  cbv zeta in H. destruct H as (H1 & _ & H3).
  split.
  - apply H1. cbn; lia.
  - apply H3. left. cbn; lia.
Defined.

End OutletFacts.
